(** * Nichicon V2H integration: wire codec and Nissan recovery supervisor

    A shallow embedding of
      - [custom_components/v2h_nichicon/v2h_api.py]   (module [V2HApi]) and
      - [custom_components/v2h_nichicon/nissan_recovery.py] (module
        [NissanRecovery]),
    together with the properties of the design document that concern them.

    Conventions of the embedding:
      - Python [int] is [Z]; [float] is the kernel's binary64 [float];
        [bytes] is [list byte]; [str] is [string];
      - [datetime] is the number of microseconds since the epoch and
        [timedelta] a number of microseconds, both in [Z];
      - a Python exception is a value of [exn], and a computation that may
        raise returns a [result];
      - [dict[str, str]] is [gmap string string]. *)

From Stdlib Require Import ZArith String Ascii List Floats Bool Lia.
From Stdlib.Strings Require Import Byte.
From stdpp Require Import base option gmap strings.
Import ListNotations.

Set Warnings "-inexact-float".
Open Scope Z_scope.

(** ** Exceptions and results *)

(** The exception classes the two modules can meet. *)
Inductive exn : Type :=
  | ValueError (msg : string)
  | OverflowError (msg : string)
  | socket_timeout
  | OSError (msg : string).

Inductive result (A : Type) : Type :=
  | Ok (a : A)
  | Raise (e : exn).
Arguments Ok {A} a.
Arguments Raise {A} e.

#[global] Instance result_ret : MRet result := fun A a => Ok a.
#[global] Instance result_bind : MBind result := fun A B f m =>
  match m with Ok a => f a | Raise e => Raise e end.

(** [try: body except Exception as err: handler]. Every member of [exn] is
    a subclass of [Exception]. *)
Definition try_except {A} (body : result A) (handler : exn -> result A) : result A :=
  match body with Ok a => Ok a | Raise e => handler e end.

(** ** Bytes, hexadecimal text, integers and floats *)

(** One element of the iterable given to [bytearray(...)] / [extend]:
    an [int] outside [range(256)] raises [ValueError]. *)
Definition byte_of_int (n : Z) : result byte :=
  if (0 <=? n) && (n <? 256) then
    match Byte.of_N (Z.to_N n) with
    | Some b => Ok b
    | None => Raise (ValueError "byte must be in range(0, 256)")
    end
  else Raise (ValueError "byte must be in range(0, 256)").

Definition int_of_byte (b : byte) : Z := Z.of_N (Byte.to_N b).

(** [bytearray(ints)] *)
Fixpoint bytearray (ints : list Z) : result (list byte) :=
  match ints with
  | [] => Ok []
  | n :: rest =>
      b ← byte_of_int n;
      bs ← bytearray rest;
      mret (b :: bs)
  end.

Definition hex_digit (n : N) : ascii :=
  match n with
  | 0 => "0" | 1 => "1" | 2 => "2" | 3 => "3" | 4 => "4" | 5 => "5"
  | 6 => "6" | 7 => "7" | 8 => "8" | 9 => "9" | 10 => "a" | 11 => "b"
  | 12 => "c" | 13 => "d" | 14 => "e" | _ => "f"
  end%N%char.

(** [bytes.hex()]: two lower-case digits per byte. *)
Fixpoint bytes_hex (data : list byte) : string :=
  match data with
  | [] => EmptyString
  | b :: rest =>
      let n := Byte.to_N b in
      String (hex_digit (n / 16)) (String (hex_digit (n mod 16)) (bytes_hex rest))
  end.

(** [needle in s] together with [s.index(needle)]: the first position of
    [needle], [None] when it does not occur. *)
Definition str_index (needle s : string) : option nat := String.index 0 needle s.

(** [s[a:b]] for [0 <= a], with Python's clamping at the end of [s]. *)
Definition str_slice (s : string) (a b : nat) : string := String.substring a (b - a) s.

Definition hex_value (c : ascii) : option Z :=
  let n := Z.of_N (N_of_ascii c) in
  if (48 <=? n) && (n <=? 57) then Some (n - 48)
  else if (97 <=? n) && (n <=? 102) then Some (n - 87)
  else if (65 <=? n) && (n <=? 70) then Some (n - 55)
  else None.

Fixpoint int16_digits (acc : Z) (s : string) : result Z :=
  match s with
  | EmptyString => Ok acc
  | String c rest =>
      match hex_value c with
      | Some d => int16_digits (16 * acc + d) rest
      | None => Raise (ValueError "invalid literal for int() with base 16")
      end
  end.

(** [int(s, 16)] on the strings the parser builds (slices of [bytes.hex()],
    that is runs of hexadecimal digits): the empty string and any
    character that is not a hexadecimal digit raise [ValueError]. *)
Definition int16 (s : string) : result Z :=
  match s with
  | EmptyString => Raise (ValueError "invalid literal for int() with base 16")
  | _ => int16_digits 0 s
  end.

(** The conversion [int -> float] that [int / float] performs first:
    round to nearest even, [OverflowError] when the integer is beyond the
    largest finite binary64. *)
Definition float_of_int (n : Z) : result float :=
  match binary_normalize prec emax n 0 false with
  | S754_infinity _ => Raise (OverflowError "int too large to convert to float")
  | sf => Ok (SF2Prim sf)
  end.

(** [n / 1000.0] with [n : int]. *)
Definition int_truediv_1000 (n : Z) : result float :=
  x ← float_of_int n;
  mret (x / 1000)%float.

Module V2HApi.

(** ECHONET Lite constants (minimal set) *)
Definition EHD1 : Z := 0x10.
Definition EHD2 : Z := 0x81.
Definition ESV_GET : Z := 0x62.
Definition ESV_GET_RES : Z := 0x72.
Definition DEFAULT_ECHONET_PORT : Z := 3610.

(** Basic snapshot of V2H real-time status. *)
Record V2HStatus : Type := mkV2HStatus {
  charging_power_kw : option float;
  discharging_power_kw : option float;
  mode : option string;
  raw_hex : option string;
  updated_at : option Z
}.

(** The fields of [NichiconV2HClient] that frame construction reads. *)
Record NichiconV2HClient : Type := mkClient {
  _host : string;
  _port : Z;
  _tid : Z;
  _seoj : Z * Z * Z;
  _deoj : Z * Z * Z
}.

(** [NichiconV2HClient.__init__] *)
Definition init (host : string) : NichiconV2HClient :=
  {| _host := host;
     _port := DEFAULT_ECHONET_PORT;
     _tid := 1;
     _seoj := (0x0E, 0xF0, 0x01);
     _deoj := (0x02, 0x7E, 0x01) |}.

Definition set_tid (c : NichiconV2HClient) (t : Z) : NichiconV2HClient :=
  {| _host := _host c; _port := _port c; _tid := t;
     _seoj := _seoj c; _deoj := _deoj c |}.

(** [_next_tid]: the new transaction id as two bytes, and the updated
    client. *)
Definition _next_tid (c : NichiconV2HClient) : (Z * Z) * NichiconV2HClient :=
  let t := Z.land (_tid c + 1) 0xFFFF in
  ((Z.land (Z.shiftr t 8) 0xFF, Z.land t 0xFF), set_tid c t).

(** The loop [for epc in epcs: props.extend([epc, 0x00])]. *)
Fixpoint extend_props (props : list byte) (epcs : list Z) : result (list byte) :=
  match epcs with
  | [] => Ok props
  | epc :: rest =>
      entry ← bytearray [epc; 0x00];
      extend_props (props ++ entry) rest
  end.

(** [_build_get_frame]. The transaction id is advanced before anything can
    raise, so the client is returned beside the result. *)
Definition _build_get_frame (c : NichiconV2HClient) (epcs : list Z)
  : result (list byte) * NichiconV2HClient :=
  let '((tid_hi, tid_lo), c') := _next_tid c in
  let '(s1, s2, s3) := _seoj c' in
  let '(d1, d2, d3) := _deoj c' in
  (props ← extend_props [] epcs;
   let opc := Z.of_nat (length epcs) in
   frame ← bytearray [EHD1; EHD2; tid_hi; tid_lo; s1; s2; s3; d1; d2; d3; ESV_GET; opc];
   mret (frame ++ props),
   c').

(** The body of one [try:] block of [_parse_realtime_response]:
<<
    pdc = int(response_hex[idx + 2 : idx + 4], 16)
    edt_hex = response_hex[idx + 4 : idx + 4 + pdc * 2]
    charging_kw = int(edt_hex, 16) / 1000.0
>> *)
Definition parse_power (response_hex : string) (idx : nat) : result float :=
  pdc ← int16 (str_slice response_hex (idx + 2) (idx + 4));
  let edt_hex := str_slice response_hex (idx + 4) (idx + 4 + Z.to_nat pdc * 2) in
  n ← int16 edt_hex;
  int_truediv_1000 n.

(** [if "d3" in response_hex: idx = ...; try: ... except Exception: warn].
    The variable keeps its initial [None] when the marker is missing or
    when the [try] block raised (the handler only logs a warning). *)
Definition parse_epc (marker response_hex : string) : result (option float) :=
  match str_index marker response_hex with
  | Some idx =>
      try_except (kw ← parse_power response_hex idx; mret (Some kw))
                 (fun err => mret None)
  | None => mret None
  end.

(** The [if / elif / else] that derives the mode. *)
Definition derive_mode (charging_kw discharging_kw : option float) : string :=
  if match charging_kw with Some c => (0 <? c)%float | None => false end then "charging"
  else if match discharging_kw with Some d => (0 <? d)%float | None => false end
  then "discharging"
  else "idle".

(** [_parse_realtime_response]; [utcnow] is the value [datetime.utcnow()]
    returns when the snapshot is built. *)
Definition _parse_realtime_response (data : list byte) (utcnow : Z) : result V2HStatus :=
  let response_hex := bytes_hex data in
  charging_kw ← parse_epc "d3" response_hex;
  discharging_kw ← parse_epc "d4" response_hex;
  let mode := derive_mode charging_kw discharging_kw in
  mret {| charging_power_kw := charging_kw;
          discharging_power_kw := discharging_kw;
          mode := Some mode;
          raw_hex := Some response_hex;
          updated_at := Some utcnow |}.

(** [_send_and_recv]: [exchange] is what the UDP socket does with the
    payload (the datagram received, [socket.timeout], or another
    [OSError]). The two handlers log and re-raise, and an exception of
    another class passes through untouched. *)
Definition _send_and_recv (exchange : list byte -> result (list byte))
    (payload : list byte) : result (list byte) :=
  try_except (data ← exchange payload; mret data)
             (fun err => match err with
                         | socket_timeout => Raise err
                         | OSError _ => Raise err
                         | ValueError _ | OverflowError _ => Raise err
                         end).

(** [get_realtime_status] *)
Definition get_realtime_status (exchange : list byte -> result (list byte))
    (utcnow : Z) (c : NichiconV2HClient) : result V2HStatus * NichiconV2HClient :=
  let epcs := [0xD3; 0xD4] in
  let '(built, c') := _build_get_frame c epcs in
  (frame ← built;
   resp ← _send_and_recv exchange frame;
   status ← _parse_realtime_response resp utcnow;
   mret status,
   c').

End V2HApi.

Module NissanRecovery.

(** [class RecoveryStep(str, Enum)]: every member is a [str], compared by
    value, and [member + "_LOCK"] is an ordinary [str]; [_step] therefore
    ranges over strings. *)
Definition RecoveryStep : Type := string.
Definition IDLE : RecoveryStep := "idle".
Definition STEP1_TIMER_TOGGLE : RecoveryStep := "step1_timer_toggle".
Definition STEP2_START_DISCHARGE : RecoveryStep := "step2_start_discharge".
Definition STEP3_CONNECTOR_RESET : RecoveryStep := "step3_connector_reset".
Definition STEP4_START_CHARGE : RecoveryStep := "step4_start_charge".
Definition DONE : RecoveryStep := "done".
Definition FAILED : RecoveryStep := "failed".
(** The two sentinels [STEP3_CONNECTOR_RESET + "_LOCK"] and
    [STEP4_START_CHARGE + "_STOP"]. *)
Definition STEP3_CONNECTOR_RESET_LOCK : RecoveryStep :=
  String.append STEP3_CONNECTOR_RESET "_LOCK".
Definition STEP4_START_CHARGE_STOP : RecoveryStep :=
  String.append STEP4_START_CHARGE "_STOP".

Record NissanObservedState : Type := mkObs {
  connected : bool;
  cable_locked : bool;
  soc : option float;
  charging_kw : float;
  discharging_kw : float;
  grid_sold_kw : float;
  grid_bought_kw : float
}.

Definition seconds (n : Z) : Z := n * 1000000.
Definition minutes (n : Z) : Z := seconds (60 * n).

Record RecoveryConfig : Type := mkCfg {
  chg_on_kw : float;
  dis_on_kw : float;
  stuck_after : Z;
  cooldown_after_success : Z;
  cooldown_after_failure : Z;
  wait_after_step1 : Z;
  wait_after_step2 : Z;
  wait_between_unlock_lock : Z;
  wait_after_step3 : Z;
  step4_charge_duration : Z;
  wait_after_step4_stop : Z;
  max_attempts : Z
}.

(** The dataclass defaults. *)
Definition default_config : RecoveryConfig :=
  {| chg_on_kw := 0.2; dis_on_kw := 0.2;
     stuck_after := minutes 3;
     cooldown_after_success := minutes 10;
     cooldown_after_failure := minutes 30;
     wait_after_step1 := seconds 60;
     wait_after_step2 := seconds 60;
     wait_between_unlock_lock := seconds 15;
     wait_after_step3 := seconds 60;
     step4_charge_duration := minutes 10;
     wait_after_step4_stop := seconds 10;
     max_attempts := 2 |}.

Record NissanRecoveryController : Type := mkCtl {
  cfg : RecoveryConfig;
  domain : string;
  services : gmap string string;
  supports_timer_toggles : bool;
  _step : RecoveryStep;
  _attempt : Z;
  _since_idle_wrong : option Z;
  _next_action_at : option Z;
  _cooldown_until : option Z
}.

(** [NissanRecoveryController.__init__] *)
Definition init (c : RecoveryConfig) (dom : string) (svc : gmap string string)
    (timers : bool) : NissanRecoveryController :=
  {| cfg := c; domain := dom; services := svc; supports_timer_toggles := timers;
     _step := IDLE; _attempt := 0; _since_idle_wrong := None;
     _next_action_at := None; _cooldown_until := None |}.

Definition set_step (v : RecoveryStep) (s : NissanRecoveryController) :=
  {| cfg := cfg s; domain := domain s; services := services s;
     supports_timer_toggles := supports_timer_toggles s;
     _step := v; _attempt := _attempt s; _since_idle_wrong := _since_idle_wrong s;
     _next_action_at := _next_action_at s; _cooldown_until := _cooldown_until s |}.
Definition set_attempt (v : Z) (s : NissanRecoveryController) :=
  {| cfg := cfg s; domain := domain s; services := services s;
     supports_timer_toggles := supports_timer_toggles s;
     _step := _step s; _attempt := v; _since_idle_wrong := _since_idle_wrong s;
     _next_action_at := _next_action_at s; _cooldown_until := _cooldown_until s |}.
Definition set_since_idle_wrong (v : option Z) (s : NissanRecoveryController) :=
  {| cfg := cfg s; domain := domain s; services := services s;
     supports_timer_toggles := supports_timer_toggles s;
     _step := _step s; _attempt := _attempt s; _since_idle_wrong := v;
     _next_action_at := _next_action_at s; _cooldown_until := _cooldown_until s |}.
Definition set_next_action_at (v : option Z) (s : NissanRecoveryController) :=
  {| cfg := cfg s; domain := domain s; services := services s;
     supports_timer_toggles := supports_timer_toggles s;
     _step := _step s; _attempt := _attempt s; _since_idle_wrong := _since_idle_wrong s;
     _next_action_at := v; _cooldown_until := _cooldown_until s |}.
Definition set_cooldown_until (v : option Z) (s : NissanRecoveryController) :=
  {| cfg := cfg s; domain := domain s; services := services s;
     supports_timer_toggles := supports_timer_toggles s;
     _step := _step s; _attempt := _attempt s; _since_idle_wrong := _since_idle_wrong s;
     _next_action_at := _next_action_at s; _cooldown_until := v |}.

(** One [hass.services.async_call(domain, service, {"entity_id": e},
    blocking=False)]. *)
Record ServiceCall : Type := async_call {
  call_domain : string;
  call_service : string;
  call_entity_id : string
}.

(** A method of the controller: it reads and writes the fields of [self]
    and leaves a trace of the service calls it made, oldest first. *)
Definition M (A : Type) : Type :=
  NissanRecoveryController -> A * NissanRecoveryController * list ServiceCall.

#[global] Instance M_ret : MRet M := fun A a s => (a, s, []).
#[global] Instance M_bind : MBind M := fun A B f m s =>
  let '(a, s1, out1) := m s in
  let '(b, s2, out2) := f a s1 in
  (b, s2, out1 ++ out2).

Definition read {A} (field : NissanRecoveryController -> A) : M A :=
  fun s => (field s, s, []).
Definition assign (update : NissanRecoveryController -> NissanRecoveryController) : M unit :=
  fun s => (tt, update s, []).
Definition hass_async_call (c : ServiceCall) : M unit :=
  fun s => (tt, s, [c]).

(** The controller after the method, and the calls made. *)
Definition state_after {A} (r : A * NissanRecoveryController * list ServiceCall) :=
  snd (fst r).
Definition calls_of {A} (r : A * NissanRecoveryController * list ServiceCall) :=
  snd r.

(** [in_cooldown]; [now] is what [dt_util.utcnow()] returns. *)
Definition in_cooldown (now : Z) : M bool :=
  cu ← read _cooldown_until;
  mret match cu with Some t => now <? t | None => false end.

Definition _is_active (obs : NissanObservedState) : M bool :=
  c ← read cfg;
  mret ((chg_on_kw c <=? charging_kw obs)%float
        || (dis_on_kw c <=? discharging_kw obs)%float).

Definition _should_be_active (obs : NissanObservedState) : bool :=
  (0.05 <? grid_sold_kw obs)%float || (0.05 <? grid_bought_kw obs)%float.

(** [_press_button]: [if not entity_id] holds for a missing key and for an
    empty string. *)
Definition _press_button (logical : string) : M unit :=
  svc ← read services;
  match svc !! logical with
  | None => mret tt
  | Some entity_id =>
      if String.eqb entity_id "" then mret tt
      else hass_async_call (async_call "button" "press" entity_id)
  end.

(** The source file breaks off inside the header of
    [_toggle_optional_timers]: the bodies of [_reset], [_enter_cooldown]
    and [_toggle_optional_timers] are not part of it. The step machine is
    embedded over any three bodies; [_enter_cooldown] takes the clock
    reading it works with. *)
Class UnseenMethods : Type := {
  _reset : string -> M unit;
  _enter_cooldown : bool -> Z -> M unit;
  _toggle_optional_timers : M unit
}.

(** Modelled from the spec: the body of [_reset] is not in the source
    file. The design document's gate 1: "abandon any in-progress recovery,
    clear attempt counter and pending timestamps, return to Idle". The
    cooldown deadline is not a pending action and is kept. *)
Definition spec_reset (reason : string) : M unit :=
  assign (set_step IDLE);;
  assign (set_attempt 0);;
  assign (set_since_idle_wrong None);;
  assign (set_next_action_at None).

(** Modelled from the spec: the body of [_enter_cooldown] is not in the
    source file. The design document: a cooldown is "a window after a
    recovery outcome during which no further intervention is attempted",
    of the failure duration after a failure and of the success duration
    after a success, kept as the "timestamp until which a cooldown
    suppresses all intervention". *)
Definition spec_enter_cooldown (failure : bool) (now : Z) : M unit :=
  c ← read cfg;
  assign (set_cooldown_until
            (Some (now + (if failure then cooldown_after_failure c
                          else cooldown_after_success c)))).

(** Modelled from the spec: the body of [_toggle_optional_timers] is not
    in the source file. The design document: "best-effort toggle of
    optional timer settings (failures ignored)" through "an optional
    timer-toggle action" of the actuator port; here the action is pressed
    when it is configured. *)
Definition spec_toggle_optional_timers : M unit :=
  _press_button "timer_toggle".

Definition spec_methods : UnseenMethods :=
  {| _reset := spec_reset;
     _enter_cooldown := spec_enter_cooldown;
     _toggle_optional_timers := spec_toggle_optional_timers |}.

Section StepMachine.
Context {unseen : UnseenMethods}.

(** [if self.supports_timer_toggles: STEP1 else: STEP2] *)
Definition first_step (s : NissanRecoveryController) : RecoveryStep :=
  if supports_timer_toggles s then STEP1_TIMER_TOGGLE else STEP2_START_DISCHARGE.

(** [_run_steps] *)
Definition _run_steps (obs : NissanObservedState) (now : Z) : M unit :=
  naa ← read _next_action_at;
  if match naa with Some t => now <? t | None => false end then mret tt
  else
    active ← _is_active obs;
    if (active : bool) then
      assign (set_step DONE);;
      _enter_cooldown false now
    else
      step ← read _step;
      if String.eqb step STEP1_TIMER_TOGGLE then
        _toggle_optional_timers;;
        c ← read cfg;
        assign (set_next_action_at (Some (now + wait_after_step1 c)));;
        assign (set_step STEP2_START_DISCHARGE)
      else if String.eqb step STEP2_START_DISCHARGE then
        _press_button "start_discharge";;
        c ← read cfg;
        assign (set_next_action_at (Some (now + wait_after_step2 c)));;
        assign (set_step STEP3_CONNECTOR_RESET)
      else if String.eqb step STEP3_CONNECTOR_RESET then
        _press_button "unlock_connector";;
        c ← read cfg;
        assign (set_next_action_at (Some (now + wait_between_unlock_lock c)));;
        assign (set_step STEP3_CONNECTOR_RESET_LOCK)
      else if String.eqb step STEP3_CONNECTOR_RESET_LOCK then
        _press_button "lock_connector";;
        c ← read cfg;
        assign (set_next_action_at (Some (now + wait_after_step3 c)));;
        assign (set_step STEP4_START_CHARGE)
      else if String.eqb step STEP4_START_CHARGE then
        _press_button "start_charge";;
        c ← read cfg;
        assign (set_next_action_at (Some (now + step4_charge_duration c)));;
        assign (set_step STEP4_START_CHARGE_STOP)
      else if String.eqb step STEP4_START_CHARGE_STOP then
        _press_button "stop";;
        c ← read cfg;
        assign (set_next_action_at (Some (now + wait_after_step4_stop c)));;
        s ← read id;
        assign (set_step (first_step s))
      else
        _reset "unknown step".

(** The block that tracks "idle when should be active". *)
Definition track_idle_wrong (should_be_active active : bool) (now : Z) : M unit :=
  if should_be_active && negb active then
    siw ← read _since_idle_wrong;
    match siw with
    | None => assign (set_since_idle_wrong (Some now))
    | Some _ => mret tt
    end
  else assign (set_since_idle_wrong None).

(** [tick]; [now] is the reading of [dt_util.utcnow()] this tick works
    with (the clock is taken to stand still during one tick). *)
Definition tick (obs : NissanObservedState) (now : Z) : M unit :=
  if negb (connected obs) then _reset "not connected"
  else if negb (cable_locked obs) then _press_button "lock_connector"
  else
    cooling ← in_cooldown now;
    if (cooling : bool) then mret tt
    else
      active ← _is_active obs;
      let should_be_active := _should_be_active obs in
      track_idle_wrong should_be_active active now;;
      siw ← read _since_idle_wrong;
      c ← read cfg;
      let stuck := should_be_active && negb active &&
                   match siw with
                   | Some t => stuck_after c <=? now - t
                   | None => false
                   end in
      step ← read _step;
      if String.eqb step IDLE && negb stuck then mret tt
      else if String.eqb step IDLE && stuck then
        a ← read _attempt;
        assign (set_attempt (a + 1));;
        a' ← read _attempt;
        if max_attempts c <? a' then
          _enter_cooldown true now;;
          assign (set_step FAILED)
        else
          s ← read id;
          assign (set_step (first_step s));;
          assign (set_next_action_at (Some now));;
          _run_steps obs now
      else _run_steps obs now.

(** Successive ticks, each with its observation and its clock reading. *)
Fixpoint run_ticks (ticks : list (NissanObservedState * Z)) : M unit :=
  match ticks with
  | [] => mret tt
  | (obs, now) :: rest => tick obs now;; run_ticks rest
  end.

End StepMachine.

End NissanRecovery.

(** ** The wire frame as the design document words it

    The definitions of this module follow the design document (its frame
    table and its [decode] / [decode_property_as_scaled_uint]), not the
    code: they name the byte sequences a validating decoder would refuse
    and the value a property-wise decoder would return, so that the
    embedded parser can be compared with them. *)
Module WireFormat.

(** A [bytes] literal. *)
Definition bytes_literal (ints : list Z) : list byte :=
  match bytearray ints with Ok bs => bs | Raise _ => [] end.

(** Both marker bytes are there and one of them is not the expected one. *)
Definition marker_mismatch (data : list byte) : bool :=
  match data with
  | b0 :: b1 :: _ =>
      negb ((int_of_byte b0 =? V2HApi.EHD1) && (int_of_byte b1 =? V2HApi.EHD2))
  | _ => false
  end.

(** Among the first [count] properties, one declares more data bytes
    (PDC) than the buffer still holds. *)
Fixpoint property_overrun (count : nat) (rest : list byte) : bool :=
  match count with
  | O => false
  | S n =>
      match rest with
      | _ :: pdc :: edt =>
          let len := N.to_nat (Byte.to_N pdc) in
          if (length edt <? len)%nat then true
          else property_overrun n (skipn len edt)
      | _ => false
      end
  end.

(** The properties start at offset 12, after the count at offset 11. *)
Definition declared_length_overrun (data : list byte) : bool :=
  match skipn 11 data with
  | opc :: props => property_overrun (N.to_nat (Byte.to_N opc)) props
  | [] => false
  end.

(** The data bytes of the first of [count] properties whose EPC is [epc]. *)
Fixpoint find_property (count : nat) (rest : list byte) (epc : Z) : option (list byte) :=
  match count with
  | O => None
  | S n =>
      match rest with
      | e :: pdc :: edt =>
          let len := N.to_nat (Byte.to_N pdc) in
          if int_of_byte e =? epc then Some (firstn len edt)
          else find_property n (skipn len edt) epc
      | _ => None
      end
  end.

(** Big-endian unsigned integer. *)
Definition be_uint (edt : list byte) : Z :=
  fold_left (fun acc b => 256 * acc + int_of_byte b) edt 0.

(** [decode_property_as_scaled_uint(frame, epc, scale)] on the bytes of a
    frame; [None] is [PropertyAbsent]. *)
Definition decode_property_as_scaled_uint (data : list byte) (epc : Z) (scale : float)
  : option float :=
  match skipn 11 data with
  | opc :: props =>
      match find_property (N.to_nat (Byte.to_N opc)) props epc with
      | Some edt =>
          match float_of_int (be_uint edt) with
          | Ok x => Some (x / scale)%float
          | Raise _ => None
          end
      | None => None
      end
  | [] => None
  end.

(** What one [if marker in response_hex: ... try ... except] block leaves
    in its variable. *)
Definition reading (marker response_hex : string) : option float :=
  match str_index marker response_hex with
  | Some idx =>
      match V2HApi.parse_power response_hex idx with
      | Ok kw => Some kw
      | Raise _ => None
      end
  | None => None
  end.

(** A present reading above zero. *)
Definition positive (kw : option float) : bool :=
  match kw with Some x => (0 <? x)%float | None => false end.

(** The six bytes of the two object codes fit a byte each. *)
Definition object_codes_ok (c : V2HApi.NichiconV2HClient) : Prop :=
  let '(s1, s2, s3) := V2HApi._seoj c in
  let '(d1, d2, d3) := V2HApi._deoj c in
  Forall (fun n => 0 <= n < 256) [s1; s2; s3; d1; d2; d3].

(** A GET-response to transaction 0x0002 that carries EPC 0xD3 with PDC 2
    and EDT 0x01F4, and EPC 0xD4 with PDC 2 and EDT 0x0000. *)
Definition response_500W : list byte :=
  bytes_literal [0x10; 0x81; 0x00; 0x02; 0x02; 0x7E; 0x01; 0x0E; 0xF0; 0x01;
                 0x72; 0x02; 0xD3; 0x02; 0x01; 0xF4; 0xD4; 0x02; 0x00; 0x00].

(** The same response to transaction 0x00D3. *)
Definition response_500W_tid_d3 : list byte :=
  bytes_literal [0x10; 0x81; 0x00; 0xD3; 0x02; 0x7E; 0x01; 0x0E; 0xF0; 0x01;
                 0x72; 0x02; 0xD3; 0x02; 0x01; 0xF4; 0xD4; 0x02; 0x00; 0x00].

(** [response_500W] with a wrong first marker byte. *)
Definition response_bad_marker : list byte :=
  bytes_literal [0x11; 0x81; 0x00; 0x02; 0x02; 0x7E; 0x01; 0x0E; 0xF0; 0x01;
                 0x72; 0x02; 0xD3; 0x02; 0x01; 0xF4; 0xD4; 0x02; 0x00; 0x00].

(** A one-property response cut one byte before its declared end. *)
Definition response_cut_short : list byte :=
  bytes_literal [0x10; 0x81; 0x00; 0x02; 0x02; 0x7E; 0x01; 0x0E; 0xF0; 0x01;
                 0x72; 0x01; 0xD3; 0x02; 0x01].

(** A response in which both properties come back without data (PDC 0),
    as a device answers a GET it cannot serve. *)
Definition response_no_data : list byte :=
  bytes_literal [0x10; 0x81; 0x00; 0x02; 0x02; 0x7E; 0x01; 0x0E; 0xF0; 0x01;
                 0x52; 0x02; 0xD3; 0x00; 0xD4; 0x00].

End WireFormat.

(** ** Observations, gates and scenarios of the recovery supervisor

    Vocabulary for the statements about [NissanRecovery]: the conditions
    the design document names, the table of the five step branches that
    press a button, and the controllers and observations of its
    scenarios. *)
Module Supervision.
Import NissanRecovery.

(** Connected and cable-locked, grid-sold power above 0.05 kW, charging
    and discharging power both below their on-thresholds. *)
Definition quiet_while_selling (c : RecoveryConfig) (obs : NissanObservedState) : Prop :=
  connected obs = true /\ cable_locked obs = true
  /\ (0.05 <? grid_sold_kw obs)%float = true
  /\ (charging_kw obs <? chg_on_kw c)%float = true
  /\ (discharging_kw obs <? dis_on_kw c)%float = true.

(** No cooldown deadline lies ahead of [now]. *)
Definition cooldown_over (now : Z) (s : NissanRecoveryController) : Prop :=
  match _cooldown_until s with Some t => t <= now | None => True end.

(** No action is scheduled for later than [now]. *)
Definition wait_gate_open (now : Z) (s : NissanRecoveryController) : Prop :=
  match _next_action_at s with Some t => t <= now | None => True end.

(** When the condition began: the instant the controller already tracks,
    or else the first tick of the sequence. *)
Definition condition_began (s : NissanRecoveryController)
    (ticks : list (NissanObservedState * Z)) : Z :=
  match _since_idle_wrong s with
  | Some t0 => t0
  | None => match ticks with (_, t) :: _ => t | [] => 0 end
  end.

(** The value [_is_active] returns. *)
Definition active_now (obs : NissanObservedState) (s : NissanRecoveryController) : bool :=
  (chg_on_kw (cfg s) <=? charging_kw obs)%float
  || (dis_on_kw (cfg s) <=? discharging_kw obs)%float.


(** The branches of [_run_steps] that press a button: the step, the
    logical action, the wait that follows, and the step that follows
    (which for the last branch depends on [supports_timer_toggles]). *)
Definition press_branches
  : list (RecoveryStep * string * (RecoveryConfig -> Z) * (bool -> RecoveryStep)) :=
  [ (STEP2_START_DISCHARGE, "start_discharge"%string, wait_after_step2,
     fun _ : bool => STEP3_CONNECTOR_RESET);
    (STEP3_CONNECTOR_RESET, "unlock_connector"%string, wait_between_unlock_lock,
     fun _ : bool => STEP3_CONNECTOR_RESET_LOCK);
    (STEP3_CONNECTOR_RESET_LOCK, "lock_connector"%string, wait_after_step3,
     fun _ : bool => STEP4_START_CHARGE);
    (STEP4_START_CHARGE, "start_charge"%string, step4_charge_duration,
     fun _ : bool => STEP4_START_CHARGE_STOP);
    (STEP4_START_CHARGE_STOP, "stop"%string, wait_after_step4_stop,
     fun timers : bool => if timers then STEP1_TIMER_TOGGLE else STEP2_START_DISCHARGE) ].

(** The controller with [step], the new wait and nothing else changed. *)
Definition advanced (now : Z) (wait : RecoveryConfig -> Z) (next : bool -> RecoveryStep)
    (s : NissanRecoveryController) : NissanRecoveryController :=
  set_step (next (supports_timer_toggles s))
           (set_next_action_at (Some (now + wait (cfg s))) s).


(** Scenario data: a services dictionary, observations, controllers. *)
Definition buttons : gmap string string :=
  <["start_discharge" := "button.v2h_start_discharge"]>
    (<["lock_connector" := "button.v2h_lock_connector"]> ∅).

Definition selling_idle : NissanObservedState :=
  {| connected := true; cable_locked := true; soc := None;
     charging_kw := 0; discharging_kw := 0;
     grid_sold_kw := 1; grid_bought_kw := 0 |}.

Definition discharging : NissanObservedState :=
  {| connected := true; cable_locked := true; soc := None;
     charging_kw := 0; discharging_kw := 1;
     grid_sold_kw := 0; grid_bought_kw := 0 |}.

Definition unplugged : NissanObservedState :=
  {| connected := false; cable_locked := false; soc := None;
     charging_kw := 0; discharging_kw := 0;
     grid_sold_kw := 1; grid_bought_kw := 0 |}.

Definition unlocked : NissanObservedState :=
  {| connected := true; cable_locked := false; soc := None;
     charging_kw := 0; discharging_kw := 0;
     grid_sold_kw := 1; grid_bought_kw := 0 |}.

(** The controller as constructed, with the default configuration. *)
Definition fresh : NissanRecoveryController :=
  init default_config "v2h_nichicon" buttons false.

(** The default configuration with no attempt allowed. *)
Definition no_attempts : RecoveryConfig :=
  {| chg_on_kw := 0.2; dis_on_kw := 0.2;
     stuck_after := minutes 3;
     cooldown_after_success := minutes 10;
     cooldown_after_failure := minutes 30;
     wait_after_step1 := seconds 60;
     wait_after_step2 := seconds 60;
     wait_between_unlock_lock := seconds 15;
     wait_after_step3 := seconds 60;
     step4_charge_duration := minutes 10;
     wait_after_step4_stop := seconds 10;
     max_attempts := 0 |}.

Definition fresh_no_attempts : NissanRecoveryController :=
  init no_attempts "v2h_nichicon" buttons false.

(** Proof steps shared by the statements about one tick. *)

(** Unfolds a method down to the fields it reads and writes. *)
Ltac unfold_method :=
  unfold tick, _run_steps, track_idle_wrong, in_cooldown, _is_active,
    _press_button, hass_async_call, read, assign, mbind, M_bind, mret, M_ret;
  cbv beta.

(** Computes the branches already decided. *)
Ltac decide_branches :=
  cbn [negb andb orb]; cbv beta iota zeta.

(** Reads the fields of a controller that is written out. *)
Ltac read_fields :=
  cbn [cfg domain services supports_timer_toggles _step _attempt
       _since_idle_wrong _next_action_at _cooldown_until
       set_step set_attempt set_since_idle_wrong set_next_action_at
       set_cooldown_until].

(** Compares the step names that are known. *)
Ltac compare_steps :=
  repeat match goal with
         | |- context [String.eqb ?a ?b] =>
             let v := eval vm_compute in (String.eqb a b) in
             match v with
             | true => change (String.eqb a b) with true
             | false => change (String.eqb a b) with false
             end
         end;
  decide_branches.

End Supervision.

(** ** The coordinator of the V2H client and the reading of [step]

    [custom_components/v2h_nichicon/coordinator.py] and the two
    properties of [NissanRecoveryController]. *)
Module Polling.
Import V2HApi.

(** What [V2HCoordinator._async_update_data] hands to its caller: the
    status, or [UpdateFailed(message)] raised [from] the exception
    caught. *)
Inductive update : Type :=
  | Updated (status : V2HStatus)
  | UpdateFailed (message : string) (cause : exn).

(** [_async_update_data]; [str] is Python's [str()] of an exception, used
    by the f-string of the message. *)
Definition _async_update_data (str : exn -> string)
    (exchange : list byte -> result (list byte)) (utcnow : Z)
    (client : NichiconV2HClient) : update * NichiconV2HClient :=
  let '(outcome, client') := get_realtime_status exchange utcnow client in
  (match outcome with
   | Ok status => Updated status
   | Raise err => UpdateFailed (String.append "Error updating V2H data: " (str err)) err
   end,
   client').

(** [n] calls of [_next_tid] in a row. *)
Fixpoint next_tid_times (n : nat) (c : NichiconV2HClient) : NichiconV2HClient :=
  match n with
  | O => c
  | S k => snd (_next_tid (next_tid_times k c))
  end.

(** The members of [RecoveryStep], by value. *)
Definition RecoveryStep_members : list string :=
  [NissanRecovery.IDLE; NissanRecovery.STEP1_TIMER_TOGGLE;
   NissanRecovery.STEP2_START_DISCHARGE; NissanRecovery.STEP3_CONNECTOR_RESET;
   NissanRecovery.STEP4_START_CHARGE; NissanRecovery.DONE; NissanRecovery.FAILED].

(** Reading an attribute: the value, or [AttributeError]. *)
Inductive attribute (A : Type) : Type :=
  | Attribute (value : A)
  | AttributeError (message : string).
Arguments Attribute {A} value.
Arguments AttributeError {A} message.

(** The property [step]: [self._step.value]. A member of [RecoveryStep]
    has a [value]; the result of [member + "_LOCK"] is a plain [str] and
    has none. A string that is the value of a member stands for that
    member. *)
Definition step (s : NissanRecovery.NissanRecoveryController) : attribute string :=
  if existsb (String.eqb (NissanRecovery._step s)) RecoveryStep_members
  then Attribute (NissanRecovery._step s)
  else AttributeError "'str' object has no attribute 'value'".

(** The property [attempt]. *)
Definition attempt (s : NissanRecovery.NissanRecoveryController) : Z :=
  NissanRecovery._attempt s.

End Polling.

(** ** Properties of the wire codec and of the client *)
Module V2HApiFacts.
Import V2HApi WireFormat.

(** *** Results *)

Lemma bind_Ok {A B} (m : result A) (f : A -> result B) a :
  m = Ok a -> (m ≫= f) = f a.
Proof. intros ->. reflexivity. Qed.

(** *** Building bytes *)

Lemma byte_of_int_in_range n :
  0 <= n < 256 -> exists b, byte_of_int n = Ok b /\ int_of_byte b = n.
Proof.
  intros Hn. unfold byte_of_int.
  replace ((0 <=? n) && (n <? 256)) with true by (symmetry; apply andb_true_iff; lia).
  destruct (Byte.of_N (Z.to_N n)) as [b|] eqn:Hb.
  - exists b. split; [reflexivity|].
    unfold int_of_byte. rewrite (Byte.to_of_N _ Hb). lia.
  - apply Byte.of_N_None_iff in Hb. lia.
Qed.

Lemma bytearray_in_range ints :
  Forall (fun n => 0 <= n < 256) ints ->
  exists bs, bytearray ints = Ok bs /\ map int_of_byte bs = ints.
Proof.
  induction 1 as [|n ints Hn _ IH]; simpl.
  - exists []. split; reflexivity.
  - destruct (byte_of_int_in_range n Hn) as (b & Hb & Hbn).
    destruct IH as (bs & Hbs & Hmap).
    exists (b :: bs). rewrite Hb, Hbs. simpl. split; [reflexivity|].
    now rewrite Hbn, Hmap.
Qed.

Lemma extend_props_in_range epcs : forall props,
  Forall (fun n => 0 <= n < 256) epcs ->
  exists entries, extend_props props epcs = Ok (props ++ entries)
    /\ map int_of_byte entries = flat_map (fun epc => [epc; 0]) epcs.
Proof.
  induction epcs as [|epc epcs IH]; intros props Hall.
  - exists []. simpl. rewrite app_nil_r. split; reflexivity.
  - inversion Hall as [|? ? Hepc Hrest]; subst.
    destruct (bytearray_in_range [epc; 0]) as (entry & Hentry & Hmap).
    { repeat constructor; lia. }
    destruct (IH (props ++ entry) Hrest) as (entries & Hext & Hmap').
    exists (entry ++ entries). cbn [extend_props].
    rewrite (bind_Ok _ _ _ Hentry), Hext, <- app_assoc.
    split; [reflexivity|].
    rewrite map_app, Hmap, Hmap'. reflexivity.
Qed.

(** The two bytes of the advanced transaction id are its big-endian
    digits. *)
Lemma next_tid_bytes c :
  let tid := (_tid c + 1) mod 65536 in
  _next_tid c = ((tid / 256, tid mod 256), set_tid c tid).
Proof.
  unfold _next_tid. cbv zeta.
  change 0xFFFF with (Z.ones 16). change 0xFF with (Z.ones 8).
  rewrite !Z.land_ones by lia. rewrite Z.shiftr_div_pow2 by lia.
  change (2 ^ 16) with 65536. change (2 ^ 8) with 256.
  set (tid := (_tid c + 1) mod 65536).
  assert (0 <= tid < 65536) by (apply Z.mod_pos_bound; lia).
  rewrite (Z.mod_small (tid / 256)) by (split; [apply Z.div_pos; lia | apply Z.div_lt_upper_bound; lia]).
  reflexivity.
Qed.


(** C7. For every list of property ids that are bytes and few enough for
    the one-byte count, [_build_get_frame] raises nothing and returns
    exactly: 0x10, 0x81, the advanced 16-bit transaction id big-endian,
    the three bytes of the source object code, the three bytes of the
    destination object code, 0x62, the number of requested ids, then
    (EPC, 0x00) for each id in the order given. The frame is a function of
    the client and the ids alone. *)
Theorem build_get_frame_layout (c : NichiconV2HClient) (epcs : list Z) :
  object_codes_ok c ->
  Forall (fun epc => 0 <= epc < 256) epcs ->
  (length epcs < 256)%nat ->
  let tid := (_tid c + 1) mod 65536 in
  let '(s1, s2, s3) := _seoj c in
  let '(d1, d2, d3) := _deoj c in
  exists frame,
    _build_get_frame c epcs = (Ok frame, set_tid c tid)
    /\ map int_of_byte frame =
         [0x10; 0x81; tid / 256; tid mod 256; s1; s2; s3; d1; d2; d3;
          0x62; Z.of_nat (length epcs)]
         ++ flat_map (fun epc => [epc; 0x00]) epcs.
Proof.
  intros Hobj Hepcs Hlen tid.
  unfold object_codes_ok in Hobj.
  destruct (_seoj c) as [[s1 s2] s3] eqn:Hs.
  destruct (_deoj c) as [[d1 d2] d3] eqn:Hd.
  assert (Htid : 0 <= tid < 65536) by (apply Z.mod_pos_bound; lia).
  destruct (extend_props_in_range epcs [] Hepcs) as (props & Hprops & Hpmap).
  destruct (bytearray_in_range
              [EHD1; EHD2; tid / 256; tid mod 256; s1; s2; s3; d1; d2; d3;
               ESV_GET; Z.of_nat (length epcs)]) as (head & Hhead & Hhmap).
  { rewrite !Forall_cons_iff in Hobj. rewrite !Forall_cons_iff.
    unfold EHD1, EHD2, ESV_GET.
    pose proof (Z.div_pos tid 256). pose proof (Z.div_lt_upper_bound tid 256 256).
    pose proof (Z.mod_pos_bound tid 256).
    intuition lia. }
  exists (head ++ props).
  unfold _build_get_frame. rewrite next_tid_bytes. fold tid.
  cbn [_seoj _deoj set_tid]. rewrite Hs, Hd.
  rewrite (bind_Ok _ _ _ Hprops). cbv zeta. rewrite (bind_Ok _ _ _ Hhead).
  split; [reflexivity|].
  rewrite map_app, Hhmap, Hpmap. reflexivity.
Qed.

(** The client that [__init__] builds, asked for the two tracked
    properties: transaction id 2 and the sixteen bytes of the request. *)
Lemma build_get_frame_layout_witness :
  exists frame,
    _build_get_frame (init "192.168.0.20") [0xD3; 0xD4]
      = (Ok frame, set_tid (init "192.168.0.20") 2)
    /\ map int_of_byte frame =
         [0x10; 0x81; 0x00; 0x02; 0x0E; 0xF0; 0x01; 0x02; 0x7E; 0x01;
          0x62; 2; 0xD3; 0x00; 0xD4; 0x00].
Proof.
  apply (build_get_frame_layout (init "192.168.0.20") [0xD3; 0xD4]).
  - unfold object_codes_ok; simpl. repeat constructor; lia.
  - repeat constructor; lia.
  - simpl; lia.
Defined.

(** Outside the well-formed inputs the constructor of [bytearray] raises:
    256 ids do not fit the count byte. *)
Lemma build_get_frame_count_overflow :
  fst (_build_get_frame (init "192.168.0.20") (repeat 0xD3 256))
    = Raise (ValueError "byte must be in range(0, 256)").
Proof. vm_compute. reflexivity. Qed.


(** *** Parsing a response *)

(** A [try] block never lets its exception out: the variable holds the
    decoded value or stays [None]. *)
Lemma parse_epc_reading marker response_hex :
  parse_epc marker response_hex = Ok (reading marker response_hex).
Proof.
  unfold parse_epc, reading.
  destruct (str_index marker response_hex) as [idx|]; [|reflexivity].
  destruct (parse_power response_hex idx); reflexivity.
Qed.

Lemma parse_realtime_response_eq data utcnow :
  _parse_realtime_response data utcnow =
    Ok {| charging_power_kw := reading "d3" (bytes_hex data);
          discharging_power_kw := reading "d4" (bytes_hex data);
          mode := Some (derive_mode (reading "d3" (bytes_hex data))
                                    (reading "d4" (bytes_hex data)));
          raw_hex := Some (bytes_hex data);
          updated_at := Some utcnow |}.
Proof.
  unfold _parse_realtime_response. cbv zeta.
  rewrite (bind_Ok _ _ _ (parse_epc_reading "d3" _)).
  rewrite (bind_Ok _ _ _ (parse_epc_reading "d4" _)).
  reflexivity.
Qed.

Lemma derive_mode_cases c d :
  derive_mode c d = "charging" \/ derive_mode c d = "discharging"
  \/ derive_mode c d = "idle".
Proof.
  unfold derive_mode.
  destruct (match c with Some x => (0 <? x)%float | None => false end); [auto|].
  destruct (match d with Some x => (0 <? x)%float | None => false end); auto.
Qed.

(** A slice that reaches the end of the text or goes beyond it is the
    rest of the text. *)
Lemma substring_clamp s : forall n m,
  (String.length s <= n + m)%nat ->
  String.substring n m s = String.substring n (String.length s - n) s.
Proof.
  induction s as [|ch s IH]; intros n m Hlen.
  - destruct n, m; reflexivity.
  - destruct n as [|n].
    + destruct m as [|m]; [simpl in Hlen; lia|].
      cbn [String.length Nat.sub String.substring]. f_equal.
      rewrite (IH 0%nat m) by (simpl in Hlen; lia).
      now rewrite Nat.sub_0_r.
    + cbn [String.length String.substring]. apply IH. simpl in Hlen; lia.
Qed.

Lemma str_slice_clamp s a b :
  (String.length s <= b)%nat -> (a <= b)%nat ->
  str_slice s a b = str_slice s a (String.length s).
Proof.
  intros Hb Hab. unfold str_slice.
  rewrite substring_clamp by lia. reflexivity.
Qed.

(** C10. For every byte string, empty, malformed or truncated,
    [_parse_realtime_response] raises nothing and returns a snapshot whose
    mode is one of "charging", "discharging" and "idle", never [None]:
    when no power could be decoded the mode is "idle". *)
Theorem parse_realtime_response_total (data : list byte) (utcnow : Z) :
  exists status,
    _parse_realtime_response data utcnow = Ok status
    /\ (mode status = Some "charging" \/ mode status = Some "discharging"
        \/ mode status = Some "idle")
    /\ (charging_power_kw status = None -> discharging_power_kw status = None ->
        mode status = Some "idle").
Proof.
  eexists. split; [apply parse_realtime_response_eq|]. cbn [mode charging_power_kw discharging_power_kw].
  split.
  - destruct (derive_mode_cases (reading "d3" (bytes_hex data))
                                (reading "d4" (bytes_hex data))) as [H|[H|H]];
      rewrite H; auto.
  - intros -> ->. reflexivity.
Qed.

(** C8. The mode is derived by the three-way rule, for every pair of
    readings, absent or not: a present charging power above zero gives
    "charging"; otherwise a present discharging power above zero gives
    "discharging"; otherwise "idle". It is the rule
    [_parse_realtime_response] applies to the two readings of its
    snapshot. *)
Theorem mode_three_way_rule :
  (forall c d : option float,
      derive_mode c d =
        if positive c then "charging"
        else if positive d then "discharging"
        else "idle")
  /\ (forall (data : list byte) (utcnow : Z),
        exists status,
          _parse_realtime_response data utcnow = Ok status
          /\ mode status =
               Some (if positive (charging_power_kw status) then "charging"
                     else if positive (discharging_power_kw status) then "discharging"
                     else "idle")).
Proof.
  split.
  - intros c d. reflexivity.
  - intros data utcnow. eexists. split; [apply parse_realtime_response_eq|].
    reflexivity.
Qed.


(** What a [try] block computes when the declared length reaches past
    the end of the text: the digits that are there. *)
Lemma parse_power_overrun response_hex idx pdc :
  int16 (str_slice response_hex (idx + 2) (idx + 4)) = Ok pdc ->
  (String.length response_hex <= idx + 4 + Z.to_nat pdc * 2)%nat ->
  parse_power response_hex idx =
    (n ← int16 (str_slice response_hex (idx + 4) (String.length response_hex));
     int_truediv_1000 n).
Proof.
  intros Hpdc Hlen. unfold parse_power.
  rewrite (bind_Ok _ _ _ Hpdc). cbv zeta.
  rewrite (str_slice_clamp response_hex (idx + 4) (idx + 4 + Z.to_nat pdc * 2)) by lia.
  reflexivity.
Qed.

(** C1, as the code has it. For every response byte sequence decoding
    returns a snapshot: there is no [InvalidHeader] and no
    [TruncatedFrame], the marker bytes are not validated, and the raw text
    of any input is kept. When the length declared after the first "d3"
    reaches past the end of the text, the digits that are present are
    decoded as the value, and the reading is absent when they cannot be
    read as a number. *)
Theorem decoding_accepts_every_input (data : list byte) (utcnow : Z) :
  exists status,
    _parse_realtime_response data utcnow = Ok status
    /\ raw_hex status = Some (bytes_hex data)
    /\ forall idx pdc,
         str_index "d3" (bytes_hex data) = Some idx ->
         int16 (str_slice (bytes_hex data) (idx + 2) (idx + 4)) = Ok pdc ->
         (String.length (bytes_hex data) < idx + 4 + Z.to_nat pdc * 2)%nat ->
         charging_power_kw status =
           match
             n ← int16 (str_slice (bytes_hex data) (idx + 4)
                                  (String.length (bytes_hex data)));
             int_truediv_1000 n
           with
           | Ok kw => Some kw
           | Raise _ => None
           end.
Proof.
  eexists. split; [apply parse_realtime_response_eq|].
  split; [reflexivity|].
  intros idx pdc Hidx Hpdc Hlen. cbn [charging_power_kw].
  unfold reading. rewrite Hidx.
  rewrite (parse_power_overrun _ _ _ Hpdc) by lia. reflexivity.
Qed.

(** C1, as stated, fails. A response whose first marker byte is 0x11 is
    decoded like the well-formed one (0.5 kW), and a response cut one byte
    before the declared end of its property is decoded to a reading made
    of the one data byte that is left (0x01, that is 0.001 kW). *)
Lemma decoding_validates_nothing :
  (marker_mismatch response_bad_marker = true
   /\ exists status,
        _parse_realtime_response response_bad_marker 0 = Ok status
        /\ charging_power_kw status = Some 0.5%float)
  /\ (declared_length_overrun response_cut_short = true
      /\ exists status,
           _parse_realtime_response response_cut_short 0 = Ok status
           /\ charging_power_kw status = Some 0.001%float).
Proof.
  split; (split; [vm_compute; reflexivity|]); eexists;
    (split; [vm_compute; reflexivity|]); vm_compute; reflexivity.
Qed.

(** C2. On the well-formed response to transaction 0x00D3 the parser
    stops at the "d3" of the transaction id: it takes the first byte of
    the source object code (0x02) as the length and the two bytes after
    it (0x7E01) as the data, and reports 32.257 kW, where the first
    property with EPC 0xD3 (PDC 2, EDT 0x01F4) decodes to 0.5. On the same
    response to transaction 0x0002 both agree on 0.5. *)
Theorem first_d3_digits_taken_for_the_property :
  decode_property_as_scaled_uint response_500W_tid_d3 0xD3 1000 = Some 0.5%float
  /\ (exists status,
        _parse_realtime_response response_500W_tid_d3 0 = Ok status
        /\ str_index "d3" (bytes_hex response_500W_tid_d3) = Some 6%nat
        /\ charging_power_kw status = Some (32257 / 1000)%float
        /\ charging_power_kw status <> Some 0.5%float)
  /\ decode_property_as_scaled_uint response_500W 0xD3 1000 = Some 0.5%float
  /\ (exists status,
        _parse_realtime_response response_500W 0 = Ok status
        /\ charging_power_kw status = Some 0.5%float).
Proof.
  split; [vm_compute; reflexivity|].
  split.
  - eexists. split; [vm_compute; reflexivity|].
    split; [vm_compute; reflexivity|].
    split; [vm_compute; reflexivity|].
    cbn [charging_power_kw]. intros H.
    apply (f_equal (fun kw => match kw with
                              | Some x => (x <? 1)%float
                              | None => false
                              end)) in H.
    vm_compute in H. discriminate.
  - split; [vm_compute; reflexivity|].
    eexists. split; vm_compute; reflexivity.
Qed.


(** *** The client *)

Lemma send_and_recv_eq exchange payload :
  _send_and_recv exchange payload = exchange payload.
Proof.
  unfold _send_and_recv, try_except.
  destruct (exchange payload) as [data|[]]; reflexivity.
Qed.

(** C3, as the code has it. Once the request is built, a timeout or a
    socket error of the exchange reaches the caller of
    [get_realtime_status] as that very exception. A failure to decode a
    property does not: the call returns a snapshot, in which the power
    whose [try] block raised is absent, never a number put in its place. *)
Theorem transport_errors_surface_decode_errors_do_not
    (exchange : list byte -> result (list byte)) (utcnow : Z)
    (c c' : NichiconV2HClient) (frame : list byte) :
  _build_get_frame c [0xD3; 0xD4] = (Ok frame, c') ->
  (forall e, exchange frame = Raise e ->
             get_realtime_status exchange utcnow c = (Raise e, c'))
  /\ (forall data, exchange frame = Ok data ->
        exists status,
          get_realtime_status exchange utcnow c = (Ok status, c')
          /\ (forall idx e,
                str_index "d3" (bytes_hex data) = Some idx ->
                parse_power (bytes_hex data) idx = Raise e ->
                charging_power_kw status = None)
          /\ (forall idx e,
                str_index "d4" (bytes_hex data) = Some idx ->
                parse_power (bytes_hex data) idx = Raise e ->
                discharging_power_kw status = None)).
Proof.
  intros Hbuild. unfold get_realtime_status. cbv zeta. rewrite Hbuild.
  split.
  - intros e He. cbn [mbind result_bind]. rewrite send_and_recv_eq, He. reflexivity.
  - intros data Hdata. eexists. split.
    + cbn [mbind result_bind]. rewrite send_and_recv_eq, Hdata.
      cbn [mbind result_bind]. rewrite parse_realtime_response_eq. reflexivity.
    + cbn [charging_power_kw discharging_power_kw]. unfold reading.
      split; intros idx e -> ->; reflexivity.
Qed.

(** The freshly built client, with a socket that times out and with one
    that answers [response_no_data]. *)
Lemma transport_errors_surface_witness :
  let c := init "192.168.0.20" in
  fst (get_realtime_status (fun _ => Raise socket_timeout) 0 c) = Raise socket_timeout
  /\ exists status,
       fst (get_realtime_status (fun _ => Ok response_no_data) 0 c) = Ok status
       /\ charging_power_kw status = None
       /\ discharging_power_kw status = None.
Proof.
  pose (c := init "192.168.0.20").
  destruct (_build_get_frame c [0xD3; 0xD4]) as [built c'] eqn:Hbuild.
  assert (Hframe : exists frame, built = Ok frame).
  { vm_compute in Hbuild. injection Hbuild as <- _. eauto. }
  destruct Hframe as [frame ->].
  split.
  - destruct (transport_errors_surface_decode_errors_do_not
                (fun _ => Raise socket_timeout) 0 c c' frame Hbuild) as [Hraise _].
    fold c. rewrite (Hraise socket_timeout eq_refl). reflexivity.
  - destruct (transport_errors_surface_decode_errors_do_not
                (fun _ => Ok response_no_data) 0 c c' frame Hbuild) as [_ Hok].
    destruct (Hok response_no_data eq_refl) as (status & Hget & Hd3 & Hd4).
    exists status. fold c. rewrite Hget.
    split; [reflexivity|]. split.
    + apply (Hd3 24%nat (ValueError "invalid literal for int() with base 16"));
        vm_compute; reflexivity.
    + apply (Hd4 28%nat (ValueError "invalid literal for int() with base 16"));
        vm_compute; reflexivity.
Defined.

(** C3, as stated, fails. The device answers with both properties empty:
    decoding each of them raises [ValueError], and the caller still
    receives a snapshot, with both powers absent and the mode "idle". *)
Lemma decode_failure_is_swallowed :
  parse_power (bytes_hex response_no_data) 24
    = Raise (ValueError "invalid literal for int() with base 16")
  /\ parse_power (bytes_hex response_no_data) 28
    = Raise (ValueError "invalid literal for int() with base 16")
  /\ fst (get_realtime_status (fun _ => Ok response_no_data) 0 (init "192.168.0.20"))
     = Ok {| charging_power_kw := None;
             discharging_power_kw := None;
             mode := Some "idle";
             raw_hex := Some "10810002027e010ef0015202d300d400";
             updated_at := Some 0 |}.
Proof. repeat split; vm_compute; reflexivity. Qed.

End V2HApiFacts.

(** ** Properties of the recovery supervisor *)
Module NissanRecoveryFacts.
Import NissanRecovery Supervision.

(** *** Comparisons of binary64 values *)

Lemma SFcompare_swap x y :
  SFcompare y x = option_map CompOpp (SFcompare x y).
Proof.
  destruct x as [sx|sx| |sx mx ex], y as [sy|sy| |sy my ey]; simpl;
    try reflexivity;
    try (destruct sx; reflexivity); try (destruct sy; reflexivity);
    try (destruct sx, sy; reflexivity).
  destruct sx, sy; simpl; try reflexivity;
    rewrite (Z.compare_antisym ex ey); destruct (ex ?= ey)%Z; simpl; try reflexivity;
    change (Pos.compare_cont Eq my mx) with (Pos.compare my mx);
    change (Pos.compare_cont Eq mx my) with (Pos.compare mx my);
    rewrite (Pos.compare_antisym mx my); destruct (mx ?= my)%positive; reflexivity.
Qed.

(** Strictly below the threshold is not at or above it. *)
Lemma below_is_not_at_or_above (x threshold : float) :
  (x <? threshold)%float = true -> (threshold <=? x)%float = false.
Proof.
  rewrite ltb_spec, leb_spec. unfold SFltb, SFleb.
  rewrite (SFcompare_swap (Prim2SF x) (Prim2SF threshold)).
  destruct (SFcompare (Prim2SF x) (Prim2SF threshold)) as [[]|]; simpl; congruence.
Qed.

Lemma quiet_is_not_active c obs s :
  cfg s = c -> quiet_while_selling c obs -> active_now obs s = false.
Proof.
  intros <- (_ & _ & _ & Hc & Hd). unfold active_now.
  now rewrite (below_is_not_at_or_above _ _ Hc), (below_is_not_at_or_above _ _ Hd).
Qed.

Lemma quiet_should_be_active c obs :
  quiet_while_selling c obs -> _should_be_active obs = true.
Proof.
  intros (_ & _ & Hs & _). unfold _should_be_active. now rewrite Hs.
Qed.


(** *** One tick *)

Section Ticks.
Context {unseen : UnseenMethods}.

Lemma tick_cooling obs now s t :
  connected obs = true -> cable_locked obs = true ->
  _cooldown_until s = Some t -> now < t ->
  tick obs now s = (tt, s, []).
Proof.
  intros Hc Hl Hcu Hlt. apply Z.ltb_lt in Hlt.
  unfold_method. rewrite Hc, Hl. decide_branches.
  rewrite Hcu, Hlt. reflexivity.
Qed.


Lemma not_cooling now s :
  cooldown_over now s ->
  match _cooldown_until s with Some t => now <? t | None => false end = false.
Proof.
  unfold cooldown_over. destruct (_cooldown_until s); [|reflexivity].
  intros H. apply Z.ltb_ge. exact H.
Qed.

Lemma gate_open now s :
  wait_gate_open now s ->
  match _next_action_at s with Some t => now <? t | None => false end = false.
Proof.
  unfold wait_gate_open. destruct (_next_action_at s); [|reflexivity].
  intros H. apply Z.ltb_ge. exact H.
Qed.

(** In [Idle], with the device quiet while power is sold and the stuck
    duration not yet over, a tick only records when the condition began. *)
Lemma tick_idle_waiting obs now s :
  _step s = IDLE ->
  quiet_while_selling (cfg s) obs ->
  cooldown_over now s ->
  now - condition_began s [(obs, now)] < stuck_after (cfg s) ->
  tick obs now s
    = (tt, set_since_idle_wrong (Some (condition_began s [(obs, now)])) s, []).
Proof.
  intros Hstep Hquiet Hcool Hearly.
  pose proof (quiet_is_not_active _ obs s eq_refl Hquiet) as Hact.
  pose proof (quiet_should_be_active _ obs Hquiet) as Hshould.
  pose proof (not_cooling now s Hcool) as Hcd.
  destruct Hquiet as (Hc & Hl & _).
  unfold active_now in Hact. unfold condition_began in *.
  unfold_method. rewrite Hc, Hl. decide_branches. rewrite Hcd.
  decide_branches. rewrite Hact, Hshould. decide_branches.
  destruct s as [c dom svc timers step att siw naa cu].
  cbn [_since_idle_wrong cfg _step set_since_idle_wrong] in *. subst step.
  apply Z.ltb_lt in Hearly. rewrite Z.ltb_antisym in Hearly.
  apply negb_true_iff in Hearly.
  destruct siw as [t0|]; decide_branches;
    cbn [_since_idle_wrong cfg _step set_since_idle_wrong];
    rewrite Hearly; reflexivity.
Qed.


(** *** Pressing a button *)



Lemma press_button_keeps_state logical s :
  state_after (_press_button logical s) = s.
Proof.
  unfold_method. destruct (services s !! logical) as [e|]; [|reflexivity].
  destruct (String.eqb e ""); reflexivity.
Qed.

Lemma press_button_calls logical s s' :
  services s = services s' ->
  calls_of (_press_button logical s) = calls_of (_press_button logical s').
Proof.
  intros H. unfold calls_of. unfold_method. rewrite H.
  destruct (services s' !! logical) as [e|]; [|reflexivity].
  destruct (String.eqb e ""); reflexivity.
Qed.

(** Each of the five branches: once the wait gate is open and the device
    is not active, the button is pressed, the wait of the branch is
    scheduled from [now] and the step moves on. *)
Lemma run_steps_press_branch obs now s step logical wait next :
  In (step, logical, wait, next) press_branches ->
  _step s = step ->
  wait_gate_open now s ->
  active_now obs s = false ->
  _run_steps obs now s
    = (tt, advanced now wait next s, calls_of (_press_button logical s)).
Proof.
  intros Hin Hstep Hgate Hact.
  pose proof (gate_open now s Hgate) as Hg. unfold active_now in Hact.
  unfold press_branches in Hin. cbn [In] in Hin.
  destruct Hin as [H|[H|[H|[H|[H|[]]]]]]; injection H as <- <- <- <-;
    unfold calls_of, advanced; unfold_method; rewrite Hg; decide_branches;
    rewrite Hact; decide_branches; rewrite Hstep; compare_steps;
    destruct (services s !! _) as [e|]; try destruct (String.eqb e "");
    reflexivity.
Qed.


(** *** From [Idle] into a recovery attempt *)


(** In [Idle], with the stuck duration over and no attempt left, the tick
    enters the failure cooldown and ends in [Failed]; the step machine
    does not run. *)
Lemma tick_idle_stuck_exhausted obs now s :
  _step s = IDLE ->
  quiet_while_selling (cfg s) obs ->
  cooldown_over now s ->
  stuck_after (cfg s) <= now - condition_began s [(obs, now)] ->
  max_attempts (cfg s) <= _attempt s ->
  tick obs now s
    = (_enter_cooldown true now;; assign (set_step FAILED))
        (set_attempt (_attempt s + 1)
           (set_since_idle_wrong (Some (condition_began s [(obs, now)])) s)).
Proof.
  intros Hstep Hquiet Hcool Hlate Hleft.
  pose proof (quiet_is_not_active _ obs s eq_refl Hquiet) as Hact.
  pose proof (quiet_should_be_active _ obs Hquiet) as Hshould.
  pose proof (not_cooling now s Hcool) as Hcd.
  destruct Hquiet as (Hc & Hl & _).
  unfold active_now in Hact. unfold condition_began in *.
  unfold tick, track_idle_wrong, in_cooldown, _is_active, read, assign,
    mbind, M_bind, mret, M_ret. cbv beta.
  rewrite Hc, Hl. decide_branches. rewrite Hcd.
  decide_branches. rewrite Hact, Hshould. decide_branches.
  destruct s as [c dom svc timers step att siw naa cu].
  cbn [_since_idle_wrong cfg _step _attempt set_since_idle_wrong] in *. subst step.
  apply Z.leb_le in Hlate.
  assert (Hmax : (max_attempts c <? att + 1) = true) by (apply Z.ltb_lt; lia).
  destruct siw as [t0|]; decide_branches;
    cbn [_since_idle_wrong cfg _step _attempt set_since_idle_wrong set_attempt];
    rewrite Hlate; compare_steps; read_fields; rewrite Hmax; decide_branches;
    destruct (_enter_cooldown true now _) as [[[] s'] out]; reflexivity.
Qed.

(** Whatever [_enter_cooldown] does, that tick ends in [Failed]. *)
Lemma enter_cooldown_then_failed now s :
  _step (state_after ((_enter_cooldown true now;; assign (set_step FAILED)) s)) = FAILED.
Proof.
  unfold state_after, assign, mbind, M_bind.
  destruct (_enter_cooldown true now s) as [[[] s'] out]. reflexivity.
Qed.







(** *** Cooldown, unmapped buttons, [Done] and [Failed] *)

(** C6. Connected, locked and before the cooldown deadline, a tick does
    nothing: it calls no service and leaves the step, the attempt counter
    and the three timestamps as they were, whether or not the stuck
    condition holds. *)
Theorem tick_under_cooldown_does_nothing
    (s : NissanRecoveryController) (obs : NissanObservedState) (now deadline : Z) :
  connected obs = true ->
  cable_locked obs = true ->
  _cooldown_until s = Some deadline ->
  now < deadline ->
  tick obs now s = (tt, s, [])
  /\ calls_of (tick obs now s) = []
  /\ state_after (tick obs now s) = s.
Proof.
  intros Hc Hl Hcu Hlt.
  rewrite (tick_cooling obs now s deadline Hc Hl Hcu Hlt). auto.
Qed.


(** After the tracking block only [_since_idle_wrong] has changed. *)
Lemma track_idle_wrong_only_since should active now s :
  exists since,
    track_idle_wrong should active now s = (tt, set_since_idle_wrong since s, []).
Proof.
  unfold_method. destruct s as [c dom svc timers step att siw naa cu].
  destruct (should && negb active); [destruct siw|]; read_fields; eauto.
Qed.

(** Past the cooldown gate, a controller that is not in [Idle] goes
    straight to the step machine. *)
Lemma tick_not_idle obs now s :
  connected obs = true -> cable_locked obs = true ->
  cooldown_over now s ->
  String.eqb (_step s) IDLE = false ->
  tick obs now s
    = _run_steps obs now
        (state_after (track_idle_wrong (_should_be_active obs) (active_now obs s) now s)).
Proof.
  intros Hc Hl Hcool Hstep.
  pose proof (not_cooling now s Hcool) as Hcd.
  destruct (track_idle_wrong_only_since (_should_be_active obs) (active_now obs s) now s)
    as [since Htrack].
  rewrite Htrack. unfold state_after. cbn [fst snd].
  unfold tick, in_cooldown, _is_active, read, assign, mbind, M_bind, mret, M_ret.
  cbv beta. rewrite Hc, Hl. decide_branches. rewrite Hcd. decide_branches.
  fold (active_now obs s). rewrite Htrack. read_fields. rewrite Hstep.
  decide_branches.
  destruct (_run_steps obs now _) as [[[] s'] out]. reflexivity.
Qed.

(** The step machine does not know [Done] and [Failed]: with the wait
    gate open it ends the recovery as a success when the device is active
    and hands every other case to [_reset]. *)
Lemma run_steps_done_or_failed obs now s :
  _step s = DONE \/ _step s = FAILED ->
  wait_gate_open now s ->
  _run_steps obs now s
    = if active_now obs s
      then (assign (set_step DONE);; _enter_cooldown false now) s
      else _reset "unknown step" s.
Proof.
  intros Hstep Hgate. pose proof (gate_open now s Hgate) as Hg.
  unfold _run_steps, _is_active, read, assign, mbind, M_bind, mret, M_ret.
  cbv beta. rewrite Hg. decide_branches. fold (active_now obs s).
  destruct (active_now obs s); decide_branches.
  - destruct (_enter_cooldown false now _) as [[[] s'] out]. reflexivity.
  - destruct Hstep as [-> | ->]; compare_steps;
      destruct (_reset "unknown step" s) as [[[] s'] out]; reflexivity.
Qed.

(** In a recovery step or in [Done] or [Failed], a tick that is stopped
    at the wait gate changes nothing but the tracked instant. *)
Lemma tick_held_at_wait_gate obs now s due :
  connected obs = true -> cable_locked obs = true ->
  cooldown_over now s ->
  String.eqb (_step s) IDLE = false ->
  _next_action_at s = Some due -> now < due ->
  exists since, tick obs now s = (tt, set_since_idle_wrong since s, []).
Proof.
  intros Hc Hl Hcool Hstep Hdue Hlt.
  rewrite (tick_not_idle obs now s Hc Hl Hcool Hstep).
  destruct (track_idle_wrong_only_since (_should_be_active obs) (active_now obs s) now s)
    as [since Htrack].
  exists since. rewrite Htrack. unfold state_after. cbn [fst snd].
  unfold _run_steps, read, mbind, M_bind, mret, M_ret. cbv beta.
  read_fields. rewrite Hdue. apply Z.ltb_lt in Hlt. rewrite Hlt. reflexivity.
Qed.

(** C4, as the code has it. [Done] and [Failed] are left only by a tick
    that observes the car unplugged or that gets past the lock gate, the
    cooldown gate and the wait gate. From [Done] or [Failed]: an unplugged
    car makes the tick run [_reset]; an unlocked cable makes it press
    "lock_connector" and leave the controller as it is; before the
    cooldown deadline it does nothing; before the due time of the next
    action it changes nothing but the tracked instant; past the gates it
    runs [_reset] through the unknown-step branch when the device is not
    active, and enters [Done] and the success cooldown again when it is.
    So the two ticks that run [_reset] leave the supervisor in [Idle] with
    the attempt counter at zero whenever [_reset] does that. And a stuck
    [Idle] tick with no attempt left runs [_enter_cooldown] for a failure
    and ends in [Failed]. *)
Theorem done_and_failed_wait_for_the_gates
    (s : NissanRecoveryController) (obs : NissanObservedState) (now : Z) :
  _step s = DONE \/ _step s = FAILED ->
  (connected obs = false -> tick obs now s = _reset "not connected" s)
  /\ (connected obs = true -> cable_locked obs = false ->
      tick obs now s = _press_button "lock_connector" s
      /\ state_after (tick obs now s) = s)
  /\ (connected obs = true -> cable_locked obs = true ->
      forall deadline, _cooldown_until s = Some deadline -> now < deadline ->
      tick obs now s = (tt, s, []))
  /\ (connected obs = true -> cable_locked obs = true ->
      cooldown_over now s ->
      forall due, _next_action_at s = Some due -> now < due ->
      exists since, tick obs now s = (tt, set_since_idle_wrong since s, []))
  /\ (connected obs = true -> cable_locked obs = true ->
      cooldown_over now s -> wait_gate_open now s ->
      let tracked :=
        state_after (track_idle_wrong (_should_be_active obs) (active_now obs s) now s) in
      tick obs now s
        = if active_now obs s
          then (assign (set_step DONE);; _enter_cooldown false now) tracked
          else _reset "unknown step" tracked)
  /\ ((forall reason before,
         _step (state_after (_reset reason before)) = IDLE
         /\ _attempt (state_after (_reset reason before)) = 0) ->
      connected obs = false
      \/ (connected obs = true /\ cable_locked obs = true
          /\ cooldown_over now s /\ wait_gate_open now s
          /\ active_now obs s = false) ->
      _step (state_after (tick obs now s)) = IDLE
      /\ _attempt (state_after (tick obs now s)) = 0)
  /\ (forall idle : NissanRecoveryController,
      _step idle = IDLE ->
      quiet_while_selling (cfg idle) obs ->
      cooldown_over now idle ->
      stuck_after (cfg idle) <= now - condition_began idle [(obs, now)] ->
      max_attempts (cfg idle) <= _attempt idle ->
      tick obs now idle
        = (_enter_cooldown true now;; assign (set_step FAILED))
            (set_attempt (_attempt idle + 1)
               (set_since_idle_wrong (Some (condition_began idle [(obs, now)])) idle))
      /\ _step (state_after (tick obs now idle)) = FAILED).
Proof.
  intros Hstep.
  assert (Hnot_idle : String.eqb (_step s) IDLE = false)
    by (destruct Hstep as [-> | ->]; reflexivity).
  assert (Hunplugged : connected obs = false ->
                       tick obs now s = _reset "not connected" s).
  { intros Hc. unfold tick. rewrite Hc. reflexivity. }
  assert (Hpast : connected obs = true -> cable_locked obs = true ->
            cooldown_over now s -> wait_gate_open now s ->
            tick obs now s
              = if active_now obs s
                then (assign (set_step DONE);; _enter_cooldown false now)
                       (state_after (track_idle_wrong (_should_be_active obs)
                                       (active_now obs s) now s))
                else _reset "unknown step"
                       (state_after (track_idle_wrong (_should_be_active obs)
                                       (active_now obs s) now s))).
  { intros Hc Hl Hcool Hgate.
    rewrite (tick_not_idle obs now s Hc Hl Hcool Hnot_idle).
    destruct (track_idle_wrong_only_since (_should_be_active obs) (active_now obs s) now s)
      as [since Htrack].
    rewrite Htrack. unfold state_after. cbn [fst snd].
    apply (run_steps_done_or_failed obs now (set_since_idle_wrong since s));
      [exact Hstep|exact Hgate]. }
  split; [exact Hunplugged|].
  split; [|split; [|split; [|split; [|split]]]].
  - intros Hc Hl. split.
    + unfold tick. rewrite Hc, Hl. reflexivity.
    + unfold tick. rewrite Hc, Hl. decide_branches. apply press_button_keeps_state.
  - intros Hc Hl deadline Hcu Hlt. exact (tick_cooling obs now s deadline Hc Hl Hcu Hlt).
  - intros Hc Hl Hcool due Hdue Hlt.
    exact (tick_held_at_wait_gate obs now s due Hc Hl Hcool Hnot_idle Hdue Hlt).
  - intros Hc Hl Hcool Hgate tracked. exact (Hpast Hc Hl Hcool Hgate).
  - intros Hreset [Hc | (Hc & Hl & Hcool & Hgate & Hact)].
    + rewrite (Hunplugged Hc). apply Hreset.
    + rewrite (Hpast Hc Hl Hcool Hgate), Hact. apply Hreset.
  - intros idle Hidle Hquiet Hcool Hlate Hnone.
    rewrite (tick_idle_stuck_exhausted obs now idle Hidle Hquiet Hcool Hlate Hnone).
    split; [reflexivity|apply enter_cooldown_then_failed].
Qed.

End Ticks.

(** *** Scenarios, with the three missing methods as the design document
    describes them *)

(** The default controller two seconds before the end of a cooldown that
    lasts until the tenth second, stuck for an hour: nothing happens. *)
Lemma tick_under_cooldown_witness :
  let s := set_since_idle_wrong (Some (- minutes 60))
             (set_cooldown_until (Some (seconds 10)) fresh) in
  tick (unseen := spec_methods) selling_idle (seconds 8) s = (tt, s, []).
Proof.
  cbv zeta.
  apply (tick_under_cooldown_does_nothing (unseen := spec_methods)
           _ selling_idle (seconds 8) (seconds 10)); reflexivity.
Defined.




(** [_reset] as the design document describes it returns to [Idle] with
    the attempt counter at zero. *)
Lemma spec_reset_returns_to_idle reason before :
  _step (state_after (spec_reset reason before)) = IDLE
  /\ _attempt (state_after (spec_reset reason before)) = 0.
Proof. destruct before. split; reflexivity. Qed.

(** The supervisor after a recovery that succeeded at 240 s: unplugged at
    242 s it is reset; with the cable unlocked, and two seconds later
    under the cooldown, it stays in [Done]; past the cooldown, with the
    device not active, it is reset through the unknown-step branch. And
    the same supervisor with an action due at 1000 s is held at the wait
    gate at 900 s. *)
Lemma done_and_failed_witness :
  let recovered :=
    state_after (run_ticks (unseen := spec_methods)
                   [(selling_idle, 0); (selling_idle, seconds 180);
                    (discharging, seconds 240)] fresh) in
  let held := set_next_action_at (Some (seconds 1000)) recovered in
  _step recovered = DONE
  /\ _step (state_after (tick (unseen := spec_methods) unplugged (seconds 242) recovered)) = IDLE
  /\ _attempt (state_after (tick (unseen := spec_methods) unplugged (seconds 242) recovered)) = 0
  /\ state_after (tick (unseen := spec_methods) unlocked (seconds 242) recovered) = recovered
  /\ tick (unseen := spec_methods) selling_idle (seconds 242) recovered = (tt, recovered, [])
  /\ _step (state_after (tick (unseen := spec_methods) selling_idle (seconds 900) recovered)) = IDLE
  /\ _attempt (state_after (tick (unseen := spec_methods) selling_idle (seconds 900) recovered)) = 0
  /\ (exists since,
        tick (unseen := spec_methods) selling_idle (seconds 900) held
          = (tt, set_since_idle_wrong since held, [])).
Proof.
  cbv zeta.
  set (recovered := state_after (run_ticks (unseen := spec_methods) _ fresh)).
  set (held := set_next_action_at (Some (seconds 1000)) recovered).
  assert (Hdone : _step recovered = DONE) by (vm_compute; reflexivity).
  assert (Hheld : _step held = DONE) by (vm_compute; reflexivity).
  split; [exact Hdone|].
  destruct (done_and_failed_wait_for_the_gates (unseen := spec_methods)
              recovered unplugged (seconds 242) (or_introl Hdone))
    as (_ & _ & _ & _ & _ & Hreset & _).
  destruct (done_and_failed_wait_for_the_gates (unseen := spec_methods)
              recovered unlocked (seconds 242) (or_introl Hdone)) as (_ & Hlock & _).
  destruct (done_and_failed_wait_for_the_gates (unseen := spec_methods)
              recovered selling_idle (seconds 242) (or_introl Hdone))
    as (_ & _ & Hcool & _).
  destruct (done_and_failed_wait_for_the_gates (unseen := spec_methods)
              recovered selling_idle (seconds 900) (or_introl Hdone))
    as (_ & _ & _ & _ & _ & Hpast & _).
  destruct (done_and_failed_wait_for_the_gates (unseen := spec_methods)
              held selling_idle (seconds 900) (or_introl Hheld))
    as (_ & _ & _ & Hwait & _).
  destruct (Hreset spec_reset_returns_to_idle (or_introl eq_refl)) as [Hr1 Hr2].
  destruct (Hpast spec_reset_returns_to_idle) as [Hp1 Hp2].
  { right. repeat split; try reflexivity; vm_compute; discriminate. }
  split; [exact Hr1|]. split; [exact Hr2|].
  split; [exact (proj2 (Hlock eq_refl eq_refl))|].
  split; [exact (Hcool eq_refl eq_refl (seconds 840) eq_refl eq_refl)|].
  split; [exact Hp1|]. split; [exact Hp2|].
  assert (Hover : cooldown_over (seconds 900) held) by (vm_compute; discriminate).
  exact (Hwait eq_refl eq_refl Hover (seconds 1000) eq_refl eq_refl).
Defined.

(** With the three missing methods as the design document describes them:
    the recovery succeeds at 240 s and leaves the supervisor in [Done];
    the next tick, two seconds later, leaves it in [Done]. With no attempt
    allowed the stuck tick at 180 s leaves it in [Failed]; the next tick,
    with the cable unlocked, and the one after, under the failure
    cooldown, leave it in [Failed]. *)
Lemma done_outlives_the_next_tick :
  let run := run_ticks (unseen := spec_methods) in
  (_step (state_after (run [(selling_idle, 0); (selling_idle, seconds 180);
                            (discharging, seconds 240)] fresh)) = DONE
   /\ _step (state_after (run [(selling_idle, 0); (selling_idle, seconds 180);
                               (discharging, seconds 240);
                               (discharging, seconds 242)] fresh)) = DONE)
  /\ (_step (state_after (run [(selling_idle, 0); (selling_idle, seconds 180)]
                              fresh_no_attempts)) = FAILED
      /\ _step (state_after (run [(selling_idle, 0); (selling_idle, seconds 180);
                                  (unlocked, seconds 182)] fresh_no_attempts)) = FAILED
      /\ _step (state_after (run [(selling_idle, 0); (selling_idle, seconds 180);
                                  (unlocked, seconds 182);
                                  (selling_idle, seconds 184)] fresh_no_attempts)) = FAILED)
  /\ DONE <> IDLE /\ FAILED <> IDLE.
Proof. vm_compute. repeat split; try reflexivity; discriminate. Qed.

(** C4, as stated, fails, whatever the bodies of the three missing
    methods are. The controller as constructed, with no attempt allowed,
    quiet while selling at 0 s and at 180 s: the second tick leaves it in
    [Failed]; the very next tick, at 182 s with the cable unlocked, leaves
    it in [Failed], not in [Idle]. *)
Lemma failed_outlives_the_next_tick :
  (forall unseen : UnseenMethods,
     let failed :=
       state_after (run_ticks (unseen := unseen)
                      [(selling_idle, 0); (selling_idle, seconds 180)]
                      fresh_no_attempts) in
     _step failed = FAILED
     /\ _step (state_after (tick (unseen := unseen) unlocked (seconds 182) failed))
        = FAILED)
  /\ FAILED <> IDLE.
Proof.
  split; [|discriminate].
  intros unseen failed.
  assert (Hquiet : quiet_while_selling (cfg fresh_no_attempts) selling_idle)
    by (repeat split; vm_compute; reflexivity).
  assert (Hfailed : _step failed = FAILED).
  { unfold failed. cbn [run_ticks]. unfold mbind, M_bind.
    rewrite (tick_idle_waiting selling_idle 0 fresh_no_attempts eq_refl Hquiet I)
      by (vm_compute; reflexivity).
    rewrite (tick_idle_stuck_exhausted selling_idle (seconds 180)
               (set_since_idle_wrong (Some 0) fresh_no_attempts) eq_refl Hquiet I)
      by (vm_compute; discriminate).
    pose proof (enter_cooldown_then_failed (seconds 180)
                  (set_attempt 1 (set_since_idle_wrong (Some 0) fresh_no_attempts)))
      as Hentered.
    unfold state_after, mret, M_ret in *.
    destruct ((_enter_cooldown true (seconds 180);; assign (set_step FAILED)) _)
      as [[[] entered] out]. exact Hentered. }
  split; [exact Hfailed|].
  unfold tick. cbn [connected cable_locked unlocked negb].
  rewrite press_button_keeps_state. exact Hfailed.
Qed.

End NissanRecoveryFacts.

(** ** More about the wire codec, the client and its coordinator *)
Module V2HApiMore.
Import V2HApi WireFormat Polling V2HApiFacts.

(** *** Hexadecimal text *)

Lemma hex_high_digit (b : byte) :
  hex_value (hex_digit (Byte.to_N b / 16)) = Some (int_of_byte b / 16).
Proof. destruct b; reflexivity. Qed.

Lemma hex_low_digit (b : byte) :
  hex_value (hex_digit (Byte.to_N b mod 16)) = Some (int_of_byte b mod 16).
Proof. destruct b; reflexivity. Qed.

Lemma int16_digits_bytes_hex data : forall acc,
  int16_digits acc (bytes_hex data)
    = Ok (fold_left (fun a b => 256 * a + int_of_byte b) data acc).
Proof.
  induction data as [|b data IH]; intros acc; [reflexivity|].
  cbn [bytes_hex int16_digits fold_left].
  rewrite hex_high_digit, hex_low_digit, IH. do 2 f_equal.
  pose proof (Z.div_mod (int_of_byte b) 16). lia.
Qed.

Lemma int16_bytes_hex data :
  data <> [] -> int16 (bytes_hex data) = Ok (be_uint data).
Proof.
  destruct data as [|b data]; [congruence|]. intros _.
  unfold be_uint. rewrite <- int16_digits_bytes_hex. reflexivity.
Qed.

Lemma bytes_hex_app a b :
  bytes_hex (a ++ b) = String.append (bytes_hex a) (bytes_hex b).
Proof.
  induction a as [|x a IH]; [reflexivity|].
  cbn [app bytes_hex String.append]. now rewrite IH.
Qed.

Lemma bytes_hex_length data :
  String.length (bytes_hex data) = (2 * length data)%nat.
Proof.
  induction data as [|b data IH]; [reflexivity|].
  cbn [bytes_hex String.length length]. rewrite IH. lia.
Qed.

Lemma substring_skip s1 : forall n m s2,
  String.substring (String.length s1 + n) m (String.append s1 s2)
    = String.substring n m s2.
Proof.
  induction s1 as [|c s1 IH]; intros n m s2; [reflexivity|].
  simpl. apply IH.
Qed.

Lemma substring_take s1 : forall s2,
  String.substring 0 (String.length s1) (String.append s1 s2) = s1.
Proof.
  induction s1 as [|c s1 IH]; intros s2.
  - destruct s2; reflexivity.
  - simpl. now rewrite IH.
Qed.

Lemma prefix_empty s : String.prefix EmptyString s = true.
Proof. destruct s; reflexivity. Qed.

(** A two-character needle with two different characters, absent from
    [s1], is first found right after [s1]. *)
Lemma index_after_clean_text (a b : ascii) s1 : forall s3,
  a <> b ->
  String.index 0 (String a (String b EmptyString)) s1 = None ->
  String.index 0 (String a (String b EmptyString))
               (String.append s1 (String a (String b s3)))
    = Some (String.length s1).
Proof.
  induction s1 as [|c s1 IH]; intros s3 Hab Hnone.
  - simpl.
    destruct (ascii_dec a a); [|congruence].
    destruct (ascii_dec b b); [|congruence]. now rewrite prefix_empty.
  - simpl in Hnone |- *.
    destruct (String.index 0 (String a (String b EmptyString)) s1) eqn:Hrest.
    { destruct (ascii_dec a c); [|discriminate].
      destruct (String.prefix (String b EmptyString) s1); discriminate. }
    rewrite (IH s3 Hab eq_refl).
    destruct (ascii_dec a c) as [Hac|Hac]; [|reflexivity].
    destruct s1 as [|d s1]; simpl in Hnone |- *.
    + destruct (ascii_dec b a); [congruence|reflexivity].
    + destruct (ascii_dec b d); [|reflexivity].
      rewrite prefix_empty in Hnone. discriminate.
Qed.


(** *** A property that the search finds where it is *)

(** The text of a response in which a marker byte follows [pre]. *)
Lemma bytes_hex_split pre (marker : byte) rest :
  bytes_hex (pre ++ marker :: rest)
    = String.append (bytes_hex pre)
        (String (hex_digit (Byte.to_N marker / 16))
           (String (hex_digit (Byte.to_N marker mod 16)) (bytes_hex rest))).
Proof. rewrite bytes_hex_app. reflexivity. Qed.

(** The two slices of a [try] block, when the marker found at
    [2 * length pre] is followed by the bytes [after]. *)
Lemma slice_after_marker pre a b after (from len : nat) :
  str_slice (String.append (bytes_hex pre) (String a (String b (bytes_hex after))))
            (2 * length pre + 2 + from) (2 * length pre + 2 + from + len)
    = String.substring from len (bytes_hex after).
Proof.
  unfold str_slice.
  replace (2 * length pre + 2 + from + len - (2 * length pre + 2 + from))%nat
    with len by lia.
  rewrite <- bytes_hex_length.
  replace (String.length (bytes_hex pre) + 2 + from)%nat
    with (String.length (bytes_hex pre) + (2 + from))%nat by lia.
  rewrite substring_skip. reflexivity.
Qed.

Lemma substring_bytes_hex_head (head rest : list byte) :
  String.substring 0 (2 * length head) (bytes_hex (head ++ rest)) = bytes_hex head.
Proof.
  rewrite bytes_hex_app, <- bytes_hex_length. apply substring_take.
Qed.

(** What a [try] block leaves in its variable when its marker does not
    occur in the text of [pre] and the bytes [marker; pdc] ++ [edt] follow
    [pre], with as many data bytes as [pdc] says. *)
Lemma reading_of_first_property (a b : ascii) (marker pdc : byte) pre edt rest :
  a <> b ->
  hex_digit (Byte.to_N marker / 16) = a ->
  hex_digit (Byte.to_N marker mod 16) = b ->
  str_index (String a (String b EmptyString)) (bytes_hex pre) = None ->
  length edt = N.to_nat (Byte.to_N pdc) ->
  reading (String a (String b EmptyString))
          (bytes_hex (pre ++ marker :: pdc :: edt ++ rest))
    = match edt with
      | [] => None
      | _ :: _ =>
          match float_of_int (be_uint edt) with
          | Ok x => Some (x / 1000)%float
          | Raise _ => None
          end
      end.
Proof.
  intros Hab Ha Hb Hclean Hlen.
  unfold reading, str_index in *.
  rewrite bytes_hex_split, Ha, Hb.
  rewrite (index_after_clean_text a b (bytes_hex pre) _ Hab Hclean).
  rewrite bytes_hex_length. unfold parse_power.
  replace (2 * length pre + 4)%nat with (2 * length pre + 2 + 0 + 2)%nat by lia.
  replace (2 * length pre + 2)%nat with (2 * length pre + 2 + 0)%nat at 1 by lia.
  rewrite slice_after_marker.
  change (String.substring 0 2 (bytes_hex (pdc :: edt ++ rest)))
    with (String.substring 0 (2 * length [pdc]) (bytes_hex ([pdc] ++ (edt ++ rest)))).
  rewrite substring_bytes_hex_head.
  rewrite (bind_Ok _ _ (int_of_byte pdc)) by (apply int16_bytes_hex; discriminate).
  cbv zeta.
  replace (2 * length pre + 2 + 0 + 2 + Z.to_nat (int_of_byte pdc) * 2)%nat
    with (2 * length pre + 2 + 2 + 2 * length edt)%nat
    by (unfold int_of_byte; rewrite <- Z_N_nat, N2Z.id; lia).
  replace (2 * length pre + 2 + 0 + 2)%nat with (2 * length pre + 2 + 2)%nat by lia.
  rewrite slice_after_marker.
  change (String.substring 2 (2 * length edt) (bytes_hex (pdc :: edt ++ rest)))
    with (String.substring 0 (2 * length edt) (bytes_hex (edt ++ rest))).
  rewrite substring_bytes_hex_head.
  destruct edt as [|e edt].
  - reflexivity.
  - rewrite (bind_Ok _ _ (be_uint (e :: edt))) by (apply int16_bytes_hex; discriminate).
    unfold int_truediv_1000.
    destruct (float_of_int (be_uint (e :: edt))); reflexivity.
Qed.


(** When the digits of the marker (0xD3 for the charging power, 0xD4 for
    the discharging power) do not occur in the text of the bytes before
    it, the parser decodes the property that follows: its data bytes as a
    big-endian unsigned integer, divided by 1000. A property without data
    (PDC 0) gives an absent reading, and so does a value too large for a
    float. *)
Theorem first_property_is_decoded
    (marker pdc : byte) (pre edt rest : list byte) (utcnow : Z) :
  marker = xd3 \/ marker = xd4 ->
  str_index (bytes_hex [marker]) (bytes_hex pre) = None ->
  length edt = N.to_nat (Byte.to_N pdc) ->
  exists status,
    _parse_realtime_response (pre ++ marker :: pdc :: edt ++ rest) utcnow = Ok status
    /\ (if Byte.eqb marker xd3 then charging_power_kw status
        else discharging_power_kw status)
       = match edt with
         | [] => None
         | _ :: _ =>
             match float_of_int (be_uint edt) with
             | Ok x => Some (x / 1000)%float
             | Raise _ => None
             end
         end.
Proof.
  intros Hmarker Hclean Hlen. eexists. split; [apply parse_realtime_response_eq|].
  destruct Hmarker as [-> | ->]; cbn [Byte.eqb charging_power_kw discharging_power_kw].
  - apply (reading_of_first_property "d" "3" xd3 pdc pre edt rest);
      [discriminate|reflexivity|reflexivity|exact Hclean|exact Hlen].
  - apply (reading_of_first_property "d" "4" xd4 pdc pre edt rest);
      [discriminate|reflexivity|reflexivity|exact Hclean|exact Hlen].
Qed.

(** The response to transaction 0x0002: the twelve header bytes hold no
    "d3", and the property that follows them reads 0x01F4, 0.5 kW. *)
Lemma first_property_is_decoded_witness :
  exists status,
    _parse_realtime_response response_500W 0 = Ok status
    /\ charging_power_kw status = Some 0.5%float.
Proof.
  destruct (first_property_is_decoded xd3 x02
              (bytes_literal [0x10; 0x81; 0x00; 0x02; 0x02; 0x7E; 0x01; 0x0E; 0xF0;
                              0x01; 0x72; 0x02])
              (bytes_literal [0x01; 0xF4])
              (bytes_literal [0xD4; 0x02; 0x00; 0x00]) 0)
    as (status & Hparse & Hkw).
  - left. reflexivity.
  - vm_compute. reflexivity.
  - reflexivity.
  - exists status. split; [exact Hparse|]. exact Hkw.
Defined.

(** *** Transaction ids *)

(** The transaction id is a counter modulo 65536: [n + 1] calls of
    [_next_tid] leave it at the old id plus [n + 1], wrapped, and each
    call returns the two big-endian bytes of the id it has just set. *)
Theorem transaction_id_counts_modulo_65536 (n : nat) (c : NichiconV2HClient) :
  _tid (next_tid_times (S n) c) = (_tid c + Z.of_nat (S n)) mod 65536
  /\ (let '(hi, lo) := fst (_next_tid (next_tid_times n c)) in
      0 <= hi < 256 /\ 0 <= lo < 256
      /\ 256 * hi + lo = _tid (next_tid_times (S n) c)).
Proof.
  assert (Hcount : forall k, _tid (next_tid_times (S k) c)
                             = (_tid c + Z.of_nat (S k)) mod 65536).
  { induction k as [|k IH].
    - cbn [next_tid_times]. rewrite next_tid_bytes. reflexivity.
    - change (next_tid_times (S (S k)) c)
        with (snd (_next_tid (next_tid_times (S k) c))).
      rewrite next_tid_bytes. cbn [snd set_tid _tid]. rewrite IH.
      rewrite Zplus_mod_idemp_l. f_equal. lia. }
  split; [apply Hcount|].
  cbn [next_tid_times]. rewrite next_tid_bytes. cbn [fst snd set_tid _tid].
  set (tid := (_tid (next_tid_times n c) + 1) mod 65536).
  assert (0 <= tid < 65536) by (apply Z.mod_pos_bound; lia).
  pose proof (Z.div_mod tid 256). pose proof (Z.mod_pos_bound tid 256).
  repeat split; lia.
Qed.


(** *** Building a request *)

Lemma byte_of_int_ok n b : byte_of_int n = Ok b -> 0 <= n < 256.
Proof.
  unfold byte_of_int.
  destruct ((0 <=? n) && (n <? 256)) eqn:Hrange; [|discriminate].
  intros _. apply andb_true_iff in Hrange. lia.
Qed.

Lemma bytearray_ok ints : forall bs,
  bytearray ints = Ok bs ->
  Forall (fun n => 0 <= n < 256) ints /\ length bs = length ints.
Proof.
  induction ints as [|n ints IH]; intros bs Hbs.
  - injection Hbs as <-. split; [constructor|reflexivity].
  - cbn [bytearray] in Hbs.
    destruct (byte_of_int n) as [b|e] eqn:Hb; [|discriminate].
    destruct (bytearray ints) as [bs'|e] eqn:Hrest; [|discriminate].
    injection Hbs as <-. destruct (IH bs' eq_refl) as [Hall Hlen].
    split; [constructor; [exact (byte_of_int_ok n b Hb)|exact Hall]|].
    cbn [length]. now rewrite Hlen.
Qed.

Lemma extend_props_ok epcs : forall props out,
  extend_props props epcs = Ok out ->
  Forall (fun epc => 0 <= epc < 256) epcs
  /\ length out = (length props + 2 * length epcs)%nat.
Proof.
  induction epcs as [|epc epcs IH]; intros props out Hout.
  - injection Hout as <-. split; [constructor|cbn; lia].
  - cbn [extend_props] in Hout.
    destruct (bytearray [epc; 0]) as [entry|e] eqn:Hentry; [|discriminate].
    destruct (bytearray_ok _ _ Hentry) as [Hall Hlen].
    destruct (IH _ _ Hout) as [Hrest Hlen'].
    split; [constructor; [now inversion Hall|exact Hrest]|].
    rewrite Hlen', length_app, Hlen. cbn [length]. lia.
Qed.

(** The bytes of a frame that is built. *)
Lemma build_get_frame_bytes (c : NichiconV2HClient) (epcs : list Z) :
  object_codes_ok c ->
  Forall (fun epc => 0 <= epc < 256) epcs ->
  (length epcs < 256)%nat ->
  let tid := (_tid c + 1) mod 65536 in
  let '(s1, s2, s3) := _seoj c in
  let '(d1, d2, d3) := _deoj c in
  exists frame,
    _build_get_frame c epcs = (Ok frame, set_tid c tid)
    /\ map int_of_byte frame =
         [0x10; 0x81; tid / 256; tid mod 256; s1; s2; s3; d1; d2; d3;
          0x62; Z.of_nat (length epcs)]
         ++ flat_map (fun epc => [epc; 0x00]) epcs.
Proof.
  intros Hobj Hepcs Hlen tid.
  unfold object_codes_ok in Hobj.
  destruct (_seoj c) as [[s1 s2] s3] eqn:Hs.
  destruct (_deoj c) as [[d1 d2] d3] eqn:Hd.
  assert (Htid : 0 <= tid < 65536) by (apply Z.mod_pos_bound; lia).
  destruct (extend_props_in_range epcs [] Hepcs) as (props & Hprops & Hpmap).
  destruct (bytearray_in_range
              [EHD1; EHD2; tid / 256; tid mod 256; s1; s2; s3; d1; d2; d3;
               ESV_GET; Z.of_nat (length epcs)]) as (head & Hhead & Hhmap).
  { rewrite !Forall_cons_iff in Hobj. rewrite !Forall_cons_iff.
    unfold EHD1, EHD2, ESV_GET.
    pose proof (Z.div_pos tid 256). pose proof (Z.div_lt_upper_bound tid 256 256).
    pose proof (Z.mod_pos_bound tid 256).
    intuition lia. }
  exists (head ++ props).
  unfold _build_get_frame. rewrite next_tid_bytes. fold tid.
  cbn [_seoj _deoj set_tid]. rewrite Hs, Hd.
  rewrite (bind_Ok _ _ _ Hprops). cbv zeta. rewrite (bind_Ok _ _ _ Hhead).
  split; [reflexivity|].
  rewrite map_app, Hhmap, Hpmap. reflexivity.
Qed.

(** With object codes that are bytes, [_build_get_frame] returns a frame
    exactly when every property id is in 0..255 and there are fewer than
    256 of them; otherwise it raises. A frame that is returned has
    12 + 2 n bytes for n ids. In both cases the transaction id of the
    client has advanced. *)
Theorem build_get_frame_succeeds_iff (c : NichiconV2HClient) (epcs : list Z) :
  object_codes_ok c ->
  ((exists frame, fst (_build_get_frame c epcs) = Ok frame)
   <-> Forall (fun epc => 0 <= epc < 256) epcs /\ (length epcs < 256)%nat)
  /\ (forall frame, fst (_build_get_frame c epcs) = Ok frame ->
                    length frame = (12 + 2 * length epcs)%nat)
  /\ snd (_build_get_frame c epcs) = set_tid c ((_tid c + 1) mod 65536).
Proof.
  intros Hobj.
  assert (Hinv : forall frame, fst (_build_get_frame c epcs) = Ok frame ->
            Forall (fun epc => 0 <= epc < 256) epcs /\ (length epcs < 256)%nat
            /\ length frame = (12 + 2 * length epcs)%nat).
  { intros frame. unfold _build_get_frame. rewrite next_tid_bytes.
    cbn [_seoj _deoj set_tid].
    destruct (_seoj c) as [[s1 s2] s3]. destruct (_deoj c) as [[d1 d2] d3].
    cbn [fst].
    destruct (extend_props [] epcs) as [props|e] eqn:Hprops; [|discriminate].
    cbn [mbind result_bind].
    destruct (bytearray _) as [head|e] eqn:Hhead; [|discriminate].
    cbn [mbind result_bind mret result_ret]. intros Hframe. injection Hframe as <-.
    destruct (extend_props_ok _ _ _ Hprops) as [Hall Hplen].
    destruct (bytearray_ok _ _ Hhead) as [Hhall Hhlen].
    rewrite !Forall_cons_iff in Hhall.
    destruct Hhall as (_ & _ & _ & _ & _ & _ & _ & _ & _ & _ & _ & Hopc & _).
    rewrite length_app, Hplen, Hhlen. cbn [length].
    split; [exact Hall|split; lia]. }
  split; [split|split].
  - intros [frame Hframe]. destruct (Hinv frame Hframe) as (H1 & H2 & _). auto.
  - intros [Hall Hlen].
    pose proof (build_get_frame_bytes c epcs Hobj Hall Hlen) as Hb. cbv zeta in Hb.
    destruct (_seoj c) as [[s1 s2] s3]. destruct (_deoj c) as [[d1 d2] d3].
    destruct Hb as (frame & Hb & _). exists frame. now rewrite Hb.
  - intros frame Hframe. apply (Hinv frame Hframe).
  - unfold _build_get_frame. rewrite next_tid_bytes. cbn [_seoj _deoj set_tid].
    destruct (_seoj c) as [[s1 s2] s3]. destruct (_deoj c) as [[d1 d2] d3].
    reflexivity.
Qed.

(** The fresh client: two ids fit, 256 ids do not, and an id of 256 does
    not. *)
Lemma build_get_frame_succeeds_witness :
  (exists frame, fst (_build_get_frame (init "192.168.0.20") [0xD3; 0xD4]) = Ok frame)
  /\ ~ (exists frame,
          fst (_build_get_frame (init "192.168.0.20") (repeat 0xD3 256)) = Ok frame)
  /\ ~ (exists frame, fst (_build_get_frame (init "192.168.0.20") [256]) = Ok frame).
Proof.
  assert (Hobj : object_codes_ok (init "192.168.0.20"))
    by (unfold object_codes_ok; simpl; repeat constructor; lia).
  split; [|split].
  - apply (build_get_frame_succeeds_iff (init "192.168.0.20") [0xD3; 0xD4] Hobj).
    split; [repeat constructor; lia|simpl; lia].
  - intros H.
    apply (build_get_frame_succeeds_iff (init "192.168.0.20") (repeat 0xD3 256) Hobj) in H.
    destruct H as [_ H]. rewrite repeat_length in H. lia.
  - intros H.
    apply (build_get_frame_succeeds_iff (init "192.168.0.20") [256] Hobj) in H.
    destruct H as [H _]. inversion H. lia.
Defined.


(** *** One poll *)

(** One call of [get_realtime_status] on a client whose object codes are
    bytes: the transaction id advances by one (modulo 65536) whatever
    happens; the socket is given one frame, the sixteen-byte GET for 0xD3
    and 0xD4 under the new id; and the result is the exception of the
    exchange or the snapshot parsed from its answer. *)
Theorem poll_sends_one_get (exchange : list byte -> result (list byte))
    (utcnow : Z) (c : NichiconV2HClient) :
  object_codes_ok c ->
  let tid := (_tid c + 1) mod 65536 in
  let '(s1, s2, s3) := _seoj c in
  let '(d1, d2, d3) := _deoj c in
  exists frame,
    map int_of_byte frame =
      [0x10; 0x81; tid / 256; tid mod 256; s1; s2; s3; d1; d2; d3;
       0x62; 2; 0xD3; 0x00; 0xD4; 0x00]
    /\ get_realtime_status exchange utcnow c
       = (match exchange frame with
          | Ok data => _parse_realtime_response data utcnow
          | Raise err => Raise err
          end,
          set_tid c tid).
Proof.
  intros Hobj tid.
  pose proof (build_get_frame_bytes c [0xD3; 0xD4] Hobj) as Hb. cbv zeta in Hb.
  destruct (_seoj c) as [[s1 s2] s3]. destruct (_deoj c) as [[d1 d2] d3].
  destruct Hb as (frame & Hb & Hmap); [repeat constructor; lia|simpl; lia|].
  exists frame. split; [exact Hmap|].
  unfold get_realtime_status. cbv zeta. rewrite Hb. fold tid.
  cbn [mbind result_bind]. rewrite send_and_recv_eq.
  destruct (exchange frame) as [data|err]; [|reflexivity].
  cbn [mbind result_bind]. rewrite parse_realtime_response_eq. reflexivity.
Qed.

(** The fresh client polls under transaction id 2; here the socket times
    out. *)
Lemma poll_sends_one_get_witness :
  exists frame,
    map int_of_byte frame =
      [0x10; 0x81; 0x00; 0x02; 0x0E; 0xF0; 0x01; 0x02; 0x7E; 0x01;
       0x62; 2; 0xD3; 0x00; 0xD4; 0x00]
    /\ get_realtime_status (fun _ => Raise socket_timeout) 0 (init "192.168.0.20")
       = (Raise socket_timeout, set_tid (init "192.168.0.20") 2).
Proof.
  apply (poll_sends_one_get (fun _ => Raise socket_timeout) 0 (init "192.168.0.20")).
  unfold object_codes_ok; simpl. repeat constructor; lia.
Defined.

(** The coordinator's update on such a client fails exactly when the
    exchange on the socket raises, and then with [UpdateFailed] carrying
    that exception as its cause; any datagram that is received, decodable
    or not, gives a status. *)
Theorem update_fails_only_with_the_exchange (str : exn -> string)
    (exchange : list byte -> result (list byte)) (utcnow : Z)
    (c : NichiconV2HClient) :
  object_codes_ok c ->
  exists frame,
    fst (_build_get_frame c [0xD3; 0xD4]) = Ok frame
    /\ match exchange frame with
       | Ok data =>
           exists status,
             _parse_realtime_response data utcnow = Ok status
             /\ fst (_async_update_data str exchange utcnow c) = Updated status
       | Raise err =>
           fst (_async_update_data str exchange utcnow c)
             = UpdateFailed (String.append "Error updating V2H data: " (str err)) err
       end.
Proof.
  intros Hobj.
  pose proof (build_get_frame_bytes c [0xD3; 0xD4] Hobj) as Hb. cbv zeta in Hb.
  destruct (_seoj c) as [[s1 s2] s3]. destruct (_deoj c) as [[d1 d2] d3].
  destruct Hb as (frame & Hb & _); [repeat constructor; lia|simpl; lia|].
  exists frame. split; [now rewrite Hb|].
  unfold _async_update_data, get_realtime_status. cbv zeta. rewrite Hb.
  cbn [mbind result_bind]. rewrite send_and_recv_eq.
  destruct (exchange frame) as [data|err]; [|reflexivity].
  cbn [mbind result_bind]. rewrite parse_realtime_response_eq.
  eexists. split; reflexivity.
Qed.

(** The fresh client, a socket that times out, and one that answers with
    two empty properties. *)
Lemma update_fails_only_with_the_exchange_witness :
  fst (_async_update_data (fun _ => "timed out"%string)
         (fun _ => Raise socket_timeout) 0 (init "192.168.0.20"))
    = UpdateFailed "Error updating V2H data: timed out" socket_timeout
  /\ exists status,
       fst (_async_update_data (fun _ => "timed out"%string)
              (fun _ => Ok response_no_data) 0 (init "192.168.0.20"))
         = Updated status.
Proof.
  assert (Hobj : object_codes_ok (init "192.168.0.20"))
    by (unfold object_codes_ok; simpl; repeat constructor; lia).
  split.
  - destruct (update_fails_only_with_the_exchange (fun _ => "timed out"%string)
                (fun _ => Raise socket_timeout) 0 (init "192.168.0.20") Hobj)
      as (frame & _ & H). exact H.
  - destruct (update_fails_only_with_the_exchange (fun _ => "timed out"%string)
                (fun _ => Ok response_no_data) 0 (init "192.168.0.20") Hobj)
      as (frame & _ & status & _ & H). exists status. exact H.
Defined.

End V2HApiMore.

(** ** More about the recovery supervisor *)
Module NissanRecoveryMore.
Import NissanRecovery Supervision Polling NissanRecoveryFacts.

Section MoreTicks.
Context {unseen : UnseenMethods}.

(** An unlocked cable, with the car connected: the tick presses
    "lock_connector" when the action is mapped to an entity, changes
    nothing in the controller, and does so in every step and under
    cooldown as well. *)
Theorem unlocked_cable_only_presses_lock
    (s : NissanRecoveryController) (obs : NissanObservedState) (now : Z) :
  connected obs = true ->
  cable_locked obs = false ->
  state_after (tick obs now s) = s
  /\ calls_of (tick obs now s)
     = match services s !! "lock_connector" with
       | Some entity_id =>
           if String.eqb entity_id "" then []
           else [async_call "button" "press" entity_id]
       | None => []
       end.
Proof.
  intros Hc Hl. unfold tick. rewrite Hc, Hl. decide_branches.
  split; [apply press_button_keeps_state|].
  unfold calls_of. unfold_method.
  destruct (services s !! "lock_connector") as [e|]; [|reflexivity].
  destruct (String.eqb e ""); reflexivity.
Qed.

(** What the tracking block leaves, written out. *)
Lemma track_idle_wrong_eq should active now s :
  track_idle_wrong should active now s
    = (tt,
       set_since_idle_wrong
         (if should && negb active
          then match _since_idle_wrong s with
               | Some began => Some began
               | None => Some now
               end
          else None) s,
       []).
Proof.
  unfold_method. destruct s as [c dom svc timers step att siw naa cu].
  destruct (should && negb active); [destruct siw|]; reflexivity.
Qed.

(** In a recovery, before the next action is due, a tick presses nothing
    and leaves step, attempt counter, due time and cooldown as they are,
    also when the device has become active in the meantime: only the
    instant the condition began is tracked. *)
Theorem nothing_before_the_action_is_due
    (s : NissanRecoveryController) (obs : NissanObservedState) (now due : Z) :
  connected obs = true ->
  cable_locked obs = true ->
  cooldown_over now s ->
  _step s <> IDLE ->
  _next_action_at s = Some due ->
  now < due ->
  tick obs now s
    = (tt,
       set_since_idle_wrong
         (if _should_be_active obs && negb (active_now obs s)
          then match _since_idle_wrong s with
               | Some began => Some began
               | None => Some now
               end
          else None) s,
       []).
Proof.
  intros Hc Hl Hcool Hstep Hdue Hlt.
  apply String.eqb_neq in Hstep.
  rewrite (tick_not_idle obs now s Hc Hl Hcool Hstep).
  rewrite track_idle_wrong_eq. unfold state_after. cbn [fst snd].
  unfold _run_steps, read, mbind, M_bind, mret, M_ret. cbv beta.
  read_fields. rewrite Hdue. apply Z.ltb_lt in Hlt. rewrite Hlt. reflexivity.
Qed.

(** In a recovery, once the action is due, an active device ends it
    whatever the step: nothing is pressed, the step becomes [Done] and
    [_enter_cooldown] runs for a success. *)
Theorem active_device_ends_the_recovery
    (s : NissanRecoveryController) (obs : NissanObservedState) (now : Z) :
  connected obs = true ->
  cable_locked obs = true ->
  cooldown_over now s ->
  _step s <> IDLE ->
  wait_gate_open now s ->
  active_now obs s = true ->
  tick obs now s
    = (assign (set_step DONE);; _enter_cooldown false now)
        (set_since_idle_wrong None s).
Proof.
  intros Hc Hl Hcool Hstep Hgate Hact.
  apply String.eqb_neq in Hstep.
  rewrite (tick_not_idle obs now s Hc Hl Hcool Hstep).
  rewrite track_idle_wrong_eq, Hact, andb_false_r.
  unfold state_after. cbn [fst snd].
  pose proof (gate_open now s Hgate) as Hg. unfold active_now in Hact.
  unfold _run_steps, _is_active, read, assign, mbind, M_bind, mret, M_ret. cbv beta.
  read_fields. rewrite Hg. decide_branches. read_fields.
  rewrite Hact. decide_branches.
  destruct (_enter_cooldown false now _) as [[[] s'] out]. reflexivity.
Qed.

(** In [Idle], a tick on which the condition does not hold (no grid flow
    above 0.05 kW, or the device active) forgets when the condition
    began, so that the stuck duration starts anew. *)
Theorem interruption_restarts_the_stuck_timer
    (s : NissanRecoveryController) (obs : NissanObservedState) (now : Z) :
  connected obs = true ->
  cable_locked obs = true ->
  cooldown_over now s ->
  _step s = IDLE ->
  _should_be_active obs && negb (active_now obs s) = false ->
  tick obs now s = (tt, set_since_idle_wrong None s, []).
Proof.
  intros Hc Hl Hcool Hstep Hcond.
  pose proof (not_cooling now s Hcool) as Hcd.
  unfold tick, in_cooldown, _is_active, read, mbind, M_bind, mret, M_ret. cbv beta.
  rewrite Hc, Hl. decide_branches. rewrite Hcd. decide_branches.
  fold (active_now obs s). rewrite track_idle_wrong_eq.
  read_fields. rewrite !Hcond, Hstep. reflexivity.
Qed.


(** *** The step machine, tick by tick *)

(** A tick on which a press branch is due: the button is pressed, and the
    controller differs from the one before by the step, the due time and
    the tracked instant only. *)
Lemma tick_performs_due_press obs now s step logical wait next :
  In (step, logical, wait, next) press_branches ->
  _step s = step ->
  connected obs = true ->
  cable_locked obs = true ->
  cooldown_over now s ->
  wait_gate_open now s ->
  active_now obs s = false ->
  exists s1,
    tick obs now s = (tt, s1, calls_of (_press_button logical s))
    /\ _step s1 = next (supports_timer_toggles s)
    /\ _next_action_at s1 = Some (now + wait (cfg s))
    /\ _attempt s1 = _attempt s
    /\ _cooldown_until s1 = _cooldown_until s
    /\ cfg s1 = cfg s /\ services s1 = services s
    /\ supports_timer_toggles s1 = supports_timer_toggles s.
Proof.
  intros Hin Hstep Hc Hl Hcool Hgate Hact.
  assert (Hnot_idle : String.eqb (_step s) IDLE = false).
  { rewrite Hstep. unfold press_branches in Hin. cbn [In] in Hin.
    destruct Hin as [H|[H|[H|[H|[H|[]]]]]]; injection H as <- _ _ _; reflexivity. }
  rewrite (tick_not_idle obs now s Hc Hl Hcool Hnot_idle).
  rewrite track_idle_wrong_eq. unfold state_after at 1. cbn [fst snd].
  set (tracked := set_since_idle_wrong _ s).
  rewrite (run_steps_press_branch obs now tracked step logical wait next Hin Hstep Hgate Hact).
  rewrite (press_button_calls logical tracked s eq_refl).
  eexists. split; [reflexivity|]. repeat split.
Qed.

Lemma run_ticks_step obs now rest s s1 out1 :
  tick obs now s = (tt, s1, out1) ->
  run_ticks ((obs, now) :: rest) s
    = (tt, snd (fst (run_ticks rest s1)), out1 ++ snd (run_ticks rest s1)).
Proof.
  intros Htick. cbn [run_ticks]. unfold mbind, M_bind. rewrite Htick.
  destruct (run_ticks rest s1) as [[[] s2] out2]. reflexivity.
Qed.

(** One pass through the step machine, from the start-discharge step,
    with the device never active and each tick at or after the due time
    of its step: the five buttons are pressed in the order
    start_discharge, unlock_connector, lock_connector, start_charge, stop,
    and the supervisor is back at its first step, waiting, with the
    attempt counter and the cooldown as before: a pass does not count as
    an attempt. *)
Theorem a_full_pass_counts_no_attempt
    (s : NissanRecoveryController) (obs : NissanObservedState)
    (t1 t2 t3 t4 t5 : Z) :
  _step s = STEP2_START_DISCHARGE ->
  connected obs = true ->
  cable_locked obs = true ->
  active_now obs s = false ->
  Forall (fun t => cooldown_over t s) [t1; t2; t3; t4; t5] ->
  wait_gate_open t1 s ->
  t1 + wait_after_step2 (cfg s) <= t2 ->
  t2 + wait_between_unlock_lock (cfg s) <= t3 ->
  t3 + wait_after_step3 (cfg s) <= t4 ->
  t4 + step4_charge_duration (cfg s) <= t5 ->
  let pass := run_ticks [(obs, t1); (obs, t2); (obs, t3); (obs, t4); (obs, t5)] s in
  calls_of pass
    = calls_of (_press_button "start_discharge" s)
      ++ calls_of (_press_button "unlock_connector" s)
      ++ calls_of (_press_button "lock_connector" s)
      ++ calls_of (_press_button "start_charge" s)
      ++ calls_of (_press_button "stop" s)
  /\ _step (state_after pass) = first_step s
  /\ _attempt (state_after pass) = _attempt s
  /\ _next_action_at (state_after pass) = Some (t5 + wait_after_step4_stop (cfg s))
  /\ _cooldown_until (state_after pass) = _cooldown_until s.
Proof.
  intros Hstep Hc Hl Hact Hcool Hgate H12 H23 H34 H45 pass.
  rewrite !Forall_cons_iff in Hcool.
  destruct Hcool as (Hc1 & Hc2 & Hc3 & Hc4 & Hc5 & _).
  destruct (tick_performs_due_press obs t1 s _ _ _ _
              (or_introl eq_refl) Hstep Hc Hl Hc1 Hgate Hact)
    as (s1 & Ht1 & Hs1 & Hn1 & Ha1 & Hu1 & Hg1 & Hv1 & Hm1).
  destruct (tick_performs_due_press obs t2 s1 _ _ _ _
              (or_intror (or_introl eq_refl)) Hs1 Hc Hl)
    as (s2 & Ht2 & Hs2 & Hn2 & Ha2 & Hu2 & Hg2 & Hv2 & Hm2).
  { unfold cooldown_over. rewrite Hu1. exact Hc2. }
  { unfold wait_gate_open. rewrite Hn1. exact H12. }
  { unfold active_now. rewrite Hg1. exact Hact. }
  destruct (tick_performs_due_press obs t3 s2 _ _ _ _
              (or_intror (or_intror (or_introl eq_refl))) Hs2 Hc Hl)
    as (s3 & Ht3 & Hs3 & Hn3 & Ha3 & Hu3 & Hg3 & Hv3 & Hm3).
  { unfold cooldown_over. rewrite Hu2, Hu1. exact Hc3. }
  { unfold wait_gate_open. rewrite Hn2, Hg1. exact H23. }
  { unfold active_now. rewrite Hg2, Hg1. exact Hact. }
  destruct (tick_performs_due_press obs t4 s3 _ _ _ _
              (or_intror (or_intror (or_intror (or_introl eq_refl)))) Hs3 Hc Hl)
    as (s4 & Ht4 & Hs4 & Hn4 & Ha4 & Hu4 & Hg4 & Hv4 & Hm4).
  { unfold cooldown_over. rewrite Hu3, Hu2, Hu1. exact Hc4. }
  { unfold wait_gate_open. rewrite Hn3, Hg2, Hg1. exact H34. }
  { unfold active_now. rewrite Hg3, Hg2, Hg1. exact Hact. }
  destruct (tick_performs_due_press obs t5 s4 _ _ _ _
              (or_intror (or_intror (or_intror (or_intror (or_introl eq_refl)))))
              Hs4 Hc Hl)
    as (s5 & Ht5 & Hs5 & Hn5 & Ha5 & Hu5 & Hg5 & Hv5 & Hm5).
  { unfold cooldown_over. rewrite Hu4, Hu3, Hu2, Hu1. exact Hc5. }
  { unfold wait_gate_open. rewrite Hn4, Hg3, Hg2, Hg1. exact H45. }
  { unfold active_now. rewrite Hg4, Hg3, Hg2, Hg1. exact Hact. }
  pose proof (press_button_calls "unlock_connector" s1 s Hv1) as Hp2.
  pose proof (press_button_calls "lock_connector" s2 s (eq_trans Hv2 Hv1)) as Hp3.
  pose proof (press_button_calls "start_charge" s3 s
                (eq_trans Hv3 (eq_trans Hv2 Hv1))) as Hp4.
  pose proof (press_button_calls "stop" s4 s
                (eq_trans Hv4 (eq_trans Hv3 (eq_trans Hv2 Hv1)))) as Hp5.
  rewrite Hp2 in Ht2. rewrite Hp3 in Ht3. rewrite Hp4 in Ht4. rewrite Hp5 in Ht5.
  unfold pass.
  rewrite (run_ticks_step _ _ _ _ _ _ Ht1), (run_ticks_step _ _ _ _ _ _ Ht2),
    (run_ticks_step _ _ _ _ _ _ Ht3), (run_ticks_step _ _ _ _ _ _ Ht4),
    (run_ticks_step _ _ _ _ _ _ Ht5).
  cbn [run_ticks]. unfold state_after, mret, M_ret. cbn [fst snd].
  unfold calls_of at 1. cbn [snd]. rewrite app_nil_r.
  split; [reflexivity|].
  split; [rewrite Hs5, Hm4, Hm3, Hm2, Hm1; reflexivity|].
  split; [rewrite Ha5, Ha4, Ha3, Ha2, Ha1; reflexivity|].
  split; [rewrite Hn5, Hg4, Hg3, Hg2, Hg1; reflexivity|].
  rewrite Hu5, Hu4, Hu3, Hu2, Hu1. reflexivity.
Qed.


(** A step that is neither [Idle] nor one of the six steps of the
    machine, whatever string it is: once past the gates, with the device
    not active, the tick presses nothing itself and hands the controller
    to [_reset]. *)
Theorem unknown_step_is_handed_to_reset
    (s : NissanRecoveryController) (obs : NissanObservedState) (now : Z) :
  ~ In (_step s)
       [IDLE; STEP1_TIMER_TOGGLE; STEP2_START_DISCHARGE; STEP3_CONNECTOR_RESET;
        STEP3_CONNECTOR_RESET_LOCK; STEP4_START_CHARGE; STEP4_START_CHARGE_STOP] ->
  connected obs = true ->
  cable_locked obs = true ->
  cooldown_over now s ->
  wait_gate_open now s ->
  active_now obs s = false ->
  tick obs now s
    = _reset "unknown step"
        (set_since_idle_wrong
           (if _should_be_active obs
            then match _since_idle_wrong s with
                 | Some began => Some began
                 | None => Some now
                 end
            else None) s).
Proof.
  intros Hunknown Hc Hl Hcool Hgate Hact.
  cbn [In] in Hunknown.
  assert (Hne : forall name,
            In name [IDLE; STEP1_TIMER_TOGGLE; STEP2_START_DISCHARGE;
                     STEP3_CONNECTOR_RESET; STEP3_CONNECTOR_RESET_LOCK;
                     STEP4_START_CHARGE; STEP4_START_CHARGE_STOP] ->
            String.eqb (_step s) name = false).
  { intros name Hin. apply String.eqb_neq. intros Heq. apply Hunknown.
    cbn [In] in Hin. rewrite Heq. tauto. }
  rewrite (tick_not_idle obs now s Hc Hl Hcool (Hne IDLE (or_introl eq_refl))).
  rewrite track_idle_wrong_eq, Hact, andb_true_r.
  unfold state_after. cbn [fst snd].
  pose proof (gate_open now s Hgate) as Hg. unfold active_now in Hact.
  unfold _run_steps, _is_active, read, assign, mbind, M_bind, mret, M_ret. cbv beta.
  read_fields. rewrite Hg. decide_branches. read_fields.
  rewrite Hact. decide_branches. read_fields.
  rewrite !Hne by (cbn [In]; tauto). decide_branches.
  destruct (_reset "unknown step" _) as [[[] s'] out]. reflexivity.
Qed.

(** Between the two halves of the connector reset, and between the start
    and the stop of the charge, [_step] holds a plain string: after the
    tick that presses "unlock_connector" or "start_charge", reading the
    property [step] raises [AttributeError], although it returned the
    step name before that tick. *)
Theorem step_property_raises_between_half_steps
    (s : NissanRecoveryController) (obs : NissanObservedState) (now : Z) :
  _step s = STEP3_CONNECTOR_RESET \/ _step s = STEP4_START_CHARGE ->
  connected obs = true ->
  cable_locked obs = true ->
  cooldown_over now s ->
  wait_gate_open now s ->
  active_now obs s = false ->
  step s = Attribute (_step s)
  /\ step (state_after (tick obs now s))
     = AttributeError "'str' object has no attribute 'value'".
Proof.
  intros Hstep Hc Hl Hcool Hgate Hact.
  split; [destruct Hstep as [H|H]; unfold step; rewrite H; reflexivity|].
  destruct Hstep as [Hstep|Hstep].
  - destruct (tick_performs_due_press obs now s _ _ _ _
                (or_intror (or_introl eq_refl)) Hstep Hc Hl Hcool Hgate Hact)
      as (s1 & Ht & Hs1 & _).
    rewrite Ht. unfold state_after, step. cbn [fst snd]. rewrite Hs1. reflexivity.
  - destruct (tick_performs_due_press obs now s _ _ _ _
                (or_intror (or_intror (or_intror (or_introl eq_refl))))
                Hstep Hc Hl Hcool Hgate Hact)
      as (s1 & Ht & Hs1 & _).
    rewrite Ht. unfold state_after, step. cbn [fst snd]. rewrite Hs1. reflexivity.
Qed.

End MoreTicks.

(** *** Scenarios *)

(** The controller in the middle of a recovery and under a cooldown, with
    the cable found open: the lock button is pressed, nothing else
    changes. *)
Lemma unlocked_cable_witness :
  let s := set_cooldown_until (Some (seconds 600))
             (set_step STEP4_START_CHARGE fresh) in
  state_after (tick (unseen := spec_methods) unlocked (seconds 10) s) = s
  /\ calls_of (tick (unseen := spec_methods) unlocked (seconds 10) s)
     = [async_call "button" "press" "button.v2h_lock_connector"].
Proof.
  cbv zeta.
  destruct (unlocked_cable_only_presses_lock (unseen := spec_methods)
              (set_cooldown_until (Some (seconds 600))
                 (set_step STEP4_START_CHARGE fresh))
              unlocked (seconds 10) eq_refl eq_refl) as [Hstate Hcalls].
  split; [exact Hstate|]. rewrite Hcalls. vm_compute. reflexivity.
Defined.

(** Ten seconds into the sixty-second wait after "start_discharge", with
    the device already discharging: nothing happens yet. *)
Lemma nothing_before_the_action_is_due_witness :
  let s := set_next_action_at (Some (seconds 240))
             (set_step STEP3_CONNECTOR_RESET fresh) in
  tick (unseen := spec_methods) discharging (seconds 190) s = (tt, s, []).
Proof.
  cbv zeta.
  rewrite (nothing_before_the_action_is_due (unseen := spec_methods)
             (set_next_action_at (Some (seconds 240))
                (set_step STEP3_CONNECTOR_RESET fresh))
             discharging (seconds 190) (seconds 240));
    [vm_compute; reflexivity|reflexivity|reflexivity|exact I|discriminate
    |reflexivity|reflexivity].
Defined.

(** At the due time the discharging device ends the recovery: [Done],
    and with the success cooldown of the design document ten minutes
    without intervention. *)
Lemma active_device_ends_the_recovery_witness :
  let s := set_next_action_at (Some (seconds 240))
             (set_step STEP3_CONNECTOR_RESET fresh) in
  tick (unseen := spec_methods) discharging (seconds 240) s
    = (tt,
       set_cooldown_until (Some (seconds 840)) (set_step DONE s),
       []).
Proof.
  cbv zeta.
  rewrite (active_device_ends_the_recovery (unseen := spec_methods)
             (set_next_action_at (Some (seconds 240))
                (set_step STEP3_CONNECTOR_RESET fresh))
             discharging (seconds 240));
    [vm_compute; reflexivity|reflexivity|reflexivity|exact I|discriminate
    |vm_compute; discriminate|vm_compute; reflexivity].
Defined.

(** An idle controller that has tracked the condition since the start
    forgets it on a tick with the device discharging. *)
Lemma interruption_restarts_witness :
  let s := set_since_idle_wrong (Some 0) fresh in
  tick (unseen := spec_methods) discharging (seconds 100) s = (tt, fresh, []).
Proof.
  cbv zeta.
  rewrite (interruption_restarts_the_stuck_timer (unseen := spec_methods)
             (set_since_idle_wrong (Some 0) fresh) discharging (seconds 100));
    [reflexivity|reflexivity|reflexivity|exact I|reflexivity|vm_compute; reflexivity].
Defined.

(** The default controller in the start-discharge step, with the two
    buttons of its dictionary: a pass presses them where they are due and
    comes back to the start-discharge step in the same attempt. *)
Lemma a_full_pass_witness :
  let s := set_attempt 1 (set_step STEP2_START_DISCHARGE fresh) in
  let pass :=
    run_ticks (unseen := spec_methods)
      [(selling_idle, seconds 180); (selling_idle, seconds 240);
       (selling_idle, seconds 255); (selling_idle, seconds 315);
       (selling_idle, seconds 915)] s in
  calls_of pass
    = [async_call "button" "press" "button.v2h_start_discharge";
       async_call "button" "press" "button.v2h_lock_connector"]
  /\ _step (state_after pass) = STEP2_START_DISCHARGE
  /\ _attempt (state_after pass) = 1.
Proof.
  cbv zeta.
  destruct (a_full_pass_counts_no_attempt (unseen := spec_methods)
              (set_attempt 1 (set_step STEP2_START_DISCHARGE fresh)) selling_idle
              (seconds 180) (seconds 240) (seconds 255) (seconds 315) (seconds 915))
    as (Hcalls & Hstep & Hattempt & _).
  - reflexivity.
  - reflexivity.
  - reflexivity.
  - vm_compute. reflexivity.
  - repeat constructor.
  - exact I.
  - vm_compute. discriminate.
  - vm_compute. discriminate.
  - vm_compute. discriminate.
  - vm_compute. discriminate.
  - rewrite Hcalls, Hstep, Hattempt. vm_compute. repeat split; reflexivity.
Defined.

(** A controller whose step was set to a string that names no step. *)
Lemma unknown_step_witness :
  let s := set_attempt 1 (set_step "paused" fresh) in
  tick (unseen := spec_methods) selling_idle (seconds 10) s
    = (tt, set_since_idle_wrong None (set_attempt 0 (set_step IDLE s)), []).
Proof.
  cbv zeta.
  rewrite (unknown_step_is_handed_to_reset (unseen := spec_methods)
             (set_attempt 1 (set_step "paused" fresh)) selling_idle (seconds 10)).
  - vm_compute. reflexivity.
  - cbn [In]. intros H. repeat (destruct H as [H|H]; [discriminate|]). exact H.
  - reflexivity.
  - reflexivity.
  - exact I.
  - exact I.
  - vm_compute. reflexivity.
Defined.

(** The default controller in the connector-reset step: the step can be
    read before the tick and cannot after it. *)
Lemma step_property_witness :
  let s := set_step STEP3_CONNECTOR_RESET fresh in
  step s = Attribute "step3_connector_reset"
  /\ step (state_after (tick (unseen := spec_methods) selling_idle (seconds 300) s))
     = AttributeError "'str' object has no attribute 'value'".
Proof.
  cbv zeta.
  apply (step_property_raises_between_half_steps (unseen := spec_methods)
           (set_step STEP3_CONNECTOR_RESET fresh) selling_idle (seconds 300)).
  - left. reflexivity.
  - reflexivity.
  - reflexivity.
  - exact I.
  - exact I.
  - vm_compute. reflexivity.
Defined.

End NissanRecoveryMore.
